(** * Shopify Partners API client: a shallow embedding of
    [tap_shopify_partners/shopify_partners.py] and the properties of its
    date-windowed transaction extraction. *)

From Stdlib Require Import ZArith String Ascii List Lia.
From stdpp Require Import base gmap strings list pretty.

Set Warnings "-register-all".

Local Open Scope string_scope.
Local Open Scope Z_scope.

(** ** Python [str] operations

    A Python [str] is a [string] whose characters are its code points: the
    model covers the texts whose code points are below 256. The operations
    scan the characters, so they are written over [list ascii] and wrapped. *)

Module PyStr.

Definition chars (s : string) : list ascii := list_ascii_of_string s.
Definition of_chars (l : list ascii) : string := string_of_list_ascii l.

(** [s.startswith(p)] *)
Fixpoint starts_with (p s : list ascii) : bool :=
  match p, s with
  | [], _ => true
  | _ :: _, [] => false
  | a :: p', b :: s' => if decide (a = b) then starts_with p' s' else false
  end.

(** [p in s] *)
Fixpoint find_in (p s : list ascii) : bool :=
  starts_with p s ||
  match s with
  | [] => false
  | _ :: s' => find_in p s'
  end.

(** The left-to-right scan of [s.replace(old, new)] for a non-empty [old]:
    [skip] counts the characters of a matched occurrence still to be
    dropped. *)
Fixpoint replace_from (old new : list ascii) (skip : nat) (s : list ascii)
  : list ascii :=
  match s with
  | [] => []
  | c :: s' =>
      match skip with
      | S k => replace_from old new k s'
      | O =>
          if starts_with old s
          then new ++ replace_from old new (length old - 1) s'
          else c :: replace_from old new 0 s'
      end
  end.

(** [s.replace(old, new)]; an empty [old] matches before every character
    and at the end. *)
Definition replace_chars (old new s : list ascii) : list ascii :=
  match old with
  | [] => new ++ flat_map (fun c => c :: new) s
  | _ :: _ => replace_from old new 0 s
  end.

Definition replace (old new s : string) : string :=
  of_chars (replace_chars (chars old) (chars new) (chars s)).

Definition contains (p s : string) : bool := find_in (chars p) (chars s).

(** [s.split(sep)] for a one-character separator. *)
Fixpoint split_chars (sep : ascii) (cur : list ascii) (s : list ascii)
  : list (list ascii) :=
  match s with
  | [] => [rev cur]
  | c :: s' =>
      if decide (c = sep) then rev cur :: split_chars sep [] s'
      else split_chars sep (c :: cur) s'
  end.

Definition split (sep : ascii) (s : string) : list string :=
  of_chars <$> split_chars sep [] (chars s).

(** White space, as [str.strip] and [int] see it, among the code points
    below 256: space, tab, newline, vertical tab, form feed, carriage return,
    the four separators 0x1c..0x1f, next line (0x85) and the no-break space
    (0xa0). *)
Definition is_space (c : ascii) : bool :=
  let n := nat_of_ascii c in
  ((n =? 32) || ((9 <=? n) && (n <=? 13)) || ((28 <=? n) && (n <=? 31))
   || (n =? 133) || (n =? 160))%nat.

Fixpoint lstrip_chars (s : list ascii) : list ascii :=
  match s with
  | c :: s' => if is_space c then lstrip_chars s' else s
  | [] => []
  end.

Definition strip_chars (s : list ascii) : list ascii :=
  rev (lstrip_chars (rev (lstrip_chars s))).

(** [s.lstrip()] *)
Definition lstrip (s : string) : string := of_chars (lstrip_chars (chars s)).

Definition digit_val (c : ascii) : option Z :=
  let n := nat_of_ascii c in
  if ((48 <=? n) && (n <=? 57))%nat then Some (Z.of_nat n - 48) else None.

Definition is_digit (c : ascii) : bool :=
  match digit_val c with Some _ => true | None => false end.

(** Digits of an integer literal, most significant first: below 256 the
    decimal digits are [0] to [9] (the superscripts 0xb2, 0xb3 and 0xb9 are
    no decimal digits). A single
    underscore may separate two digits. [prev] tells whether the previous
    character was a digit. *)
Fixpoint digits_value (acc : Z) (prev : bool) (s : list ascii) : option Z :=
  match s with
  | [] => if prev then Some acc else None
  | c :: s' =>
      match digit_val c with
      | Some d => digits_value (10 * acc + d) true s'
      | None =>
          if decide (c = "_"%char)
          then (if prev then digits_value acc false s' else None)
          else None
      end
  end.

(** [int(s)] on a [str]: surrounding white space, an optional sign, decimal
    digits; [None] stands for the [ValueError]. *)
Definition int_of_chars (s : list ascii) : option Z :=
  match strip_chars s with
  | c :: s' =>
      if decide (c = "-"%char) then Z.opp <$> digits_value 0 false s'
      else if decide (c = "+"%char) then digits_value 0 false s'
      else digits_value 0 false (c :: s')
  | [] => None
  end.

Definition int (s : string) : option Z := int_of_chars (chars s).

(** A number written with at least [width] decimal digits (['%0<width>d']). *)
Definition zero_pad (width : nat) (n : Z) : string :=
  let s := pretty (Z.abs n) in
  of_chars (replicate (width - String.length s) "0"%char) +:+ s.

End PyStr.

(** ** Values and exceptions *)

(** The exceptions the client can raise. *)
Inductive exn : Type :=
  | ValueError (msg : string)
  | AttributeError (type_name attr : string)
  | NameError (name : string)
  | KeyError (key : string)
  | IndexError (msg : string)
  | TypeError (msg : string)
  | HTTPStatusError (status : Z)
  | JSONDecodeError
  | RequestError (msg : string).

(** Keyword-argument values, as a tap configuration supplies them. *)
Inductive pyval : Type :=
  | VNone
  | VBool (b : bool)
  | VInt (n : Z)
  | VStr (s : string).

(** [str(v)] *)
Definition py_str (v : pyval) : string :=
  match v with
  | VNone => "None"
  | VBool true => "True"
  | VBool false => "False"
  | VInt n => pretty n
  | VStr s => s
  end.

(** Parsed JSON, as [response.json()] returns it. A [JObj] lists the keys of
    the parsed dict in insertion order. *)
Inductive json : Type :=
  | JNull
  | JBool (b : bool)
  | JNum (n : Z)
  | JStr (s : string)
  | JArr (items : list json)
  | JObj (fields : list (string * json)).

Fixpoint assoc {A} (k : string) (l : list (string * A)) : option A :=
  match l with
  | [] => None
  | (k', v) :: l' => if decide (k = k') then Some v else assoc k l'
  end.

(** [v[key]] for a [str] key. *)
Definition subscript (v : json) (key : string) : exn + json :=
  match v with
  | JObj fields =>
      match assoc key fields with
      | Some x => inr x
      | None => inl (KeyError key)
      end
  | JArr _ => inl (TypeError "list indices must be integers or slices, not str")
  | JStr _ => inl (TypeError "string indices must be integers")
  | JNull => inl (TypeError "'NoneType' object is not subscriptable")
  | JBool _ => inl (TypeError "'bool' object is not subscriptable")
  | JNum _ => inl (TypeError "'int' object is not subscriptable")
  end.

(** [iter(v)], run to the end: a list gives its items, a dict its keys, a
    [str] its code points, one string of length one for each. *)
Definition py_iter (v : json) : exn + list json :=
  match v with
  | JArr items => inr items
  | JObj fields => inr ((fun kv => JStr (fst kv)) <$> fields)
  | JStr s => inr ((fun c => JStr (String c "")) <$> PyStr.chars s)
  | JNull => inl (TypeError "'NoneType' object is not iterable")
  | JBool _ => inl (TypeError "'bool' object is not iterable")
  | JNum _ => inl (TypeError "'int' object is not iterable")
  end.

(** ** Calendar dates ([datetime.date], [datetime.datetime]) *)

Module Calendar.

Record date : Type := mkDate { year : Z; month : Z; day : Z }.

Record datetime : Type := mkDatetime {
  dt_date : date;
  hour : Z; minute : Z; second : Z; microsecond : Z;
  utcoffset : option Z  (* minutes east of UTC; [None] for a naive value *)
}.

Definition is_leap (y : Z) : bool :=
  (y mod 4 =? 0) && (negb (y mod 100 =? 0) || (y mod 400 =? 0)).

Definition days_in_month (y m : Z) : Z :=
  if m =? 2 then (if is_leap y then 29 else 28)
  else if (m =? 4) || (m =? 6) || (m =? 9) || (m =? 11) then 30
  else 31.

Definition days_before_year (y : Z) : Z :=
  let p := y - 1 in p * 365 + p / 4 - p / 100 + p / 400.

Fixpoint days_before_month_from (y : Z) (m : nat) : Z :=
  match m with
  | O => 0
  | S m' => days_before_month_from y m' + days_in_month y (Z.of_nat m)
  end.

Definition days_before_month (y m : Z) : Z :=
  days_before_month_from y (Z.to_nat (m - 1)).

(** [date(year, month, day)] *)
Definition date_new (y m d : Z) : exn + date :=
  if negb ((1 <=? y) && (y <=? 9999)) then inl (ValueError "year is out of range")
  else if negb ((1 <=? m) && (m <=? 12)) then inl (ValueError "month must be in 1..12")
  else if negb ((1 <=? d) && (d <=? days_in_month y m))
       then inl (ValueError "day is out of range for month")
  else inr (mkDate y m d).

(** [d.toordinal()]: 1 for 0001-01-01. *)
Definition toordinal (d : date) : Z :=
  days_before_year (year d) + days_before_month (year d) (month d) + day d.

(** [date.fromordinal(n)] *)
Definition fromordinal (n : Z) : date :=
  let n := n - 1 in
  let n400 := n / 146097 in let n := n mod 146097 in
  let n100 := n / 36524 in let n := n mod 36524 in
  let n4 := n / 1461 in let n := n mod 1461 in
  let n1 := n / 365 in let n := n mod 365 in
  let y := n400 * 400 + 1 + n100 * 100 + n4 * 4 + n1 in
  if (n1 =? 4) || (n100 =? 4) then mkDate (y - 1) 12 31
  else
    let m := Z.shiftr (n + 50) 5 in
    let preceding := days_before_month y m in
    if n <? preceding
    then mkDate y (m - 1) (n - (preceding - days_in_month y (m - 1)) + 1)
    else mkDate y m (n - preceding + 1).

(** The ordinal of 1970-01-01. *)
Definition epoch_ordinal : Z := 719163.

(** [d.strftime('%Y-%m-%d')]: the C library writes the year as it is, without
    padding (['999-01-01'] for the year 999), the month and the day on two
    digits. *)
Definition strftime_ymd (d : date) : string :=
  pretty (year d) +:+ "-" +:+ PyStr.zero_pad 2 (month d)
    +:+ "-" +:+ PyStr.zero_pad 2 (day d).

(** [d.isoformat()]: the year on four digits. *)
Definition isoformat_date (d : date) : string :=
  PyStr.zero_pad 4 (year d) +:+ "-" +:+ PyStr.zero_pad 2 (month d)
    +:+ "-" +:+ PyStr.zero_pad 2 (day d).

Definition str_offset (off : Z) : string :=
  (if off <? 0 then "-" else "+") +:+ PyStr.zero_pad 2 (Z.abs off / 60)
    +:+ ":" +:+ PyStr.zero_pad 2 (Z.abs off mod 60).

(** [str(dt)], that is [dt.isoformat(' ')] *)
Definition str_datetime (dt : datetime) : string :=
  isoformat_date (dt_date dt) +:+ " " +:+ PyStr.zero_pad 2 (hour dt)
    +:+ ":" +:+ PyStr.zero_pad 2 (minute dt)
    +:+ ":" +:+ PyStr.zero_pad 2 (second dt)
    +:+ (if microsecond dt =? 0 then "" else "." +:+ PyStr.zero_pad 6 (microsecond dt))
    +:+ (match utcoffset dt with Some off => str_offset off | None => "" end).

(** The UTC date and time at [posix] seconds after the epoch, with the
    microseconds at zero. *)
Definition utc_of_posix (posix : Z) (tz : option Z) : datetime :=
  let secs := posix mod 86400 in
  mkDatetime (fromordinal (epoch_ordinal + posix / 86400))
             (secs / 3600) (secs mod 3600 / 60) (secs mod 60) 0 tz.

(** The occurrences of [rrule(freq=DAILY, dtstart=start, until=now)], as
    ordinals: one per day from [start] while not after [now]. *)
Definition rrule_daily (start until : Z) : list Z :=
  (fun k => start + Z.of_nat k) <$> seq 0 (Z.to_nat (until - start + 1)).

End Calendar.

(** ** The store: dict objects, the process state *)

Definition loc : Type := positive.

(** Objects that are shared by reference: a [dict] of strings and a
    [MappingProxyType], the read-only view of another object. *)
Inductive object : Type :=
  | ODict (items : gmap string string)
  | OProxy (target : loc).

(** An outbound [GET] request: its URL and its headers. *)
Record Request : Type := mkRequest {
  req_url : string;
  req_headers : gmap string string
}.

(** What the client reads of an [httpx] response: the status code and the
    body parsed by [.json()], [None] when the body is not JSON. *)
Record Response : Type := mkResponse {
  status_code : Z;
  body_json : option json
}.

Record State : Type := mkState {
  heap : gmap loc object;          (* the objects allocated so far *)
  self_headers : option loc;       (* the attribute [self.headers], once set *)
  log : list string;               (* lines written by [self.logger.info] *)
  requests : list Request;         (* calls of [self.client.get], oldest first *)
  clock : Z                        (* POSIX seconds, read by [datetime.now] *)
}.

(** A normalizer of the [CLEANERS] registry: (day, raw edge) to a record. *)
Definition cleaner_fn : Type := string -> json -> exn + json.

(** What the client's imports bring from outside this file: the date parser,
    the two registries, and the server that answers the requests. *)
Record Env : Type := mkEnv {
  isoparse : string -> exn + Calendar.datetime;
  QUERIES : gmap string string;
  CLEANERS : gmap string cleaner_fn;
  server : Request -> exn + Response
}.

(** The client object: the two attributes [__init__] stores. [self.logger]
    and [self.client] are handles whose effects go to the [State]. *)
Record Shopify : Type := mkShopify {
  organization_id : string;
  shopify_partners_access_token : string
}.

(** ** Computations: state and exceptions *)

Definition M (A : Type) : Type := State -> (exn + A) * State.

Definition ret {A} (a : A) : M A := fun st => (inr a, st).
Definition raise {A} (e : exn) : M A := fun st => (inl e, st).
Definition bind {A B} (c : M A) (k : A -> M B) : M B :=
  fun st => match c st with
            | (inr a, st') => k a st'
            | (inl e, st') => (inl e, st')
            end.
Definition lift {A} (r : exn + A) : M A := fun st => (r, st).

Notation "'let*' x ':=' c 'in' k" := (bind c (fun x => k))
  (at level 10, x name, c at level 100, k at level 200, only parsing).
Notation "c ';;' k" := (bind c (fun _ => k))
  (at level 100, k at level 200, right associativity, only parsing).

(** ** Generators

    A generator body runs until it returns, raises, or yields a value together
    with the rest of the body. *)
Inductive Step : Type :=
  | Done (st : State)
  | Raised (e : exn) (st : State)
  | Yielded (v : json) (st : State) (rest : State -> Step).

Definition Gen : Type := State -> Step.

Definition gen_return : Gen := Done.
Definition gen_bind {A} (c : M A) (k : A -> Gen) : Gen :=
  fun st => match c st with
            | (inr a, st') => k a st'
            | (inl e, st') => Raised e st'
            end.

Notation "'run*' x ':=' c 'in' k" := (gen_bind c (fun x => k))
  (at level 10, x name, c at level 100, k at level 200, only parsing).

(** [for x in xs: body], followed by [k]. *)
Fixpoint for_each {A} (xs : list A) (body : A -> Gen -> Gen) (k : Gen) : Gen :=
  match xs with
  | [] => k
  | x :: xs' => body x (for_each xs' body k)
  end.

(** A generator object: not yet exhausted, with the rest of its body, or
    exhausted. *)
Inductive generator : Type :=
  | Suspended (rest : Gen)
  | Finished.

(** What one [next(g)] gives the consumer. *)
Inductive outcome : Type :=
  | Yield (v : json)
  | Raise (e : exn)
  | StopIteration.

(** [next(g)] *)
Definition next (g : generator) (st : State) : outcome * generator * State :=
  match g with
  | Finished => (StopIteration, Finished, st)
  | Suspended rest =>
      match rest st with
      | Done st' => (StopIteration, Finished, st')
      | Raised e st' => (Raise e, Finished, st')
      | Yielded v st' rest' => (Yield v, Suspended rest', st')
      end
  end.

(** Calling a generator function binds the arguments and returns the
    generator object; no statement of the body runs. *)
Definition call_generator_function (body : Gen) : State -> generator * State :=
  fun st => (Suspended body, st).

(** A consumer that advances the body to its end ([list(g)]): the values
    yielded, how the body ended, the final state. *)
Fixpoint drain (s : Step) : list json * (exn + unit) * State :=
  match s with
  | Done st => ([], inr tt, st)
  | Raised e st => ([], inl e, st)
  | Yielded v st rest =>
      let '(vs, r, st') := drain (rest st) in (v :: vs, r, st')
  end.

(** ** Store operations *)

(** The items seen through a reference to a dict or to a proxy of one. *)
Definition mapping_items (l : loc) (h : gmap loc object) : option (gmap string string) :=
  match h !! l with
  | Some (ODict m) => Some m
  | Some (OProxy t) =>
      match h !! t with
      | Some (ODict m) => Some m
      | _ => None
      end
  | None => None
  end.

(** [dict(x)]: a new dict object holding a copy of the items of [x]. *)
Definition dict_copy (l : loc) : M loc :=
  fun st =>
    match mapping_items l (heap st) with
    | Some m =>
        let l' := fresh (dom (heap st)) in
        (inr l', mkState (<[l' := ODict m]> (heap st)) (self_headers st)
                         (log st) (requests st) (clock st))
    | None => (inl (TypeError "object is not a mapping"), st)
    end.

(** [d[k]] *)
Definition dict_getitem (l : loc) (k : string) : M string :=
  fun st =>
    match mapping_items l (heap st) with
    | Some m =>
        match m !! k with
        | Some v => (inr v, st)
        | None => (inl (KeyError k), st)
        end
    | None => (inl (TypeError "object is not subscriptable"), st)
    end.

(** [d[k] = v]: a dict is updated in place, a proxy refuses. *)
Definition dict_setitem (l : loc) (k v : string) : M unit :=
  fun st =>
    match heap st !! l with
    | Some (ODict m) =>
        (inr tt, mkState (<[l := ODict (<[k := v]> m)]> (heap st)) (self_headers st)
                         (log st) (requests st) (clock st))
    | _ => (inl (TypeError "object does not support item assignment"), st)
    end.

(** [self.headers = l] *)
Definition set_self_headers (l : loc) : M unit :=
  fun st => (inr tt, mkState (heap st) (Some l) (log st) (requests st) (clock st)).

(** [self.logger.info(msg)] *)
Definition logger_info (msg : string) : M unit :=
  fun st => (inr tt, mkState (heap st) (self_headers st) (log st ++ [msg])
                             (requests st) (clock st)).

(** The state once the requests [rqs] have gone out. *)
Definition sent (rqs : list Request) (st : State) : State :=
  mkState (heap st) (self_headers st) (log st) (requests st ++ rqs) (clock st).

(** An argument passed by keyword: a reference to an object of the store,
    or a [str]. *)
Inductive argument : Type :=
  | ArgObject (l : loc)
  | ArgStr (s : string).

(** The keyword parameters of [httpx.Client.get(url, *, ...)]. A [GET]
    carries no body: [data] is a parameter of [post], [put] and [patch], not
    of [get]. *)
Definition client_get_parameters : list string :=
  [ "params"; "headers"; "cookies"; "auth"; "follow_redirects"; "timeout";
    "extensions" ].

(** Binding the keywords of a call: the first one that names no parameter
    of the callee. *)
Fixpoint unexpected_keyword (parameters : list string)
  (keywords : list (string * argument)) : option string :=
  match keywords with
  | [] => None
  | (name, _) :: keywords' =>
      if decide (name ∈ parameters) then unexpected_keyword parameters keywords'
      else Some name
  end.

(** [self.client.get(url, **keywords)]: a keyword that is no parameter
    raises [TypeError] when the call binds its arguments, before anything is
    sent; otherwise the request goes out with the headers given, and the
    server answers or the transport fails. *)
Definition client_get (env : Env) (url : string) (keywords : list (string * argument))
  : M Response :=
  match unexpected_keyword client_get_parameters keywords with
  | Some name =>
      raise (TypeError ("Client.get() got an unexpected keyword argument '"
                          +:+ name +:+ "'"))
  | None =>
      fun st =>
        match assoc "headers" keywords with
        | Some (ArgObject h) =>
            match mapping_items h (heap st) with
            | Some m => let rq := mkRequest url m in (server env rq, sent [rq] st)
            | None => (inl (TypeError "headers is not a mapping"), st)
            end
        | Some (ArgStr _) => (inl (TypeError "headers is not a mapping"), st)
        | None => let rq := mkRequest url ∅ in (server env rq, sent [rq] st)
        end
  end.

(** [response.raise_for_status()]: every status outside 2xx raises (early
    releases of the library raise for 4xx and 5xx only). *)
Definition raise_for_status (r : Response) : M unit :=
  if (200 <=? status_code r) && (status_code r <=? 299)
  then ret tt
  else raise (HTTPStatusError (status_code r)).

(** [response.json()] *)
Definition response_json (r : Response) : M json :=
  match body_json r with
  | Some v => ret v
  | None => raise JSONDecodeError
  end.

(** ** The module [shopify_partners] *)

Definition API_SCHEME : string := "https://".
Definition API_BASE_URL : string := "partners.shopify.com/".
Definition API_ORG_ID : string := ":organization_id:/".
Definition API_VERSION : string := "api/2022-01/".
Definition API_PATH_CALL_TYPE : string := "graphql.json".

(** The dict literal of [HEADERS] and the frozen view the module binds. *)
Definition HEADERS_template : gmap string string :=
  {[ "Content-Type" := "application/graphql";
     "X-Shopify-Access-Token" := ":token:" ]}.
Definition HEADERS_dict : loc := 1%positive.
Definition HEADERS : loc := 2%positive.

(** The store once the module is imported. *)
Definition module_heap : gmap loc object :=
  {[ HEADERS_dict := ODict HEADERS_template; HEADERS := OProxy HEADERS_dict ]}.

Definition initial_state (now : Z) : State := mkState module_heap None [] [] now.

(** The names the module binds at top level: its imports, its constants and
    its class. A name that is neither here nor a builtin raises [NameError]. *)
Definition module_namespace : list string :=
  [ "logging"; "datetime"; "timedelta"; "timezone"; "MappingProxyType";
    "Generator"; "Optional"; "Callable"; "httpx"; "singer"; "isoparse";
    "WEEKLY"; "rrule"; "CLEANERS"; "QUERIES";
    "API_SCHEME"; "API_BASE_URL"; "API_ORG_ID"; "API_VERSION";
    "API_PATH_CALL_TYPE"; "HEADERS"; "Shopify" ].

(** Reading a global name. *)
Definition load_name (ns : list string) (name : string) : M unit :=
  if decide (name ∈ ns) then ret tt else raise (NameError name).

(** The functions defined in [class Shopify]. *)
Inductive method : Type :=
  | m_init
  | m_shopify_partners_transactions
  | m_create_headers
  | m_start_days_till_now.

Definition Shopify_class : list (string * method) :=
  [ ("__init__", m_init);
    ("shopify_partners_transactions", m_shopify_partners_transactions);
    ("_create_headers", m_create_headers);
    ("_start_days_till_now", m_start_days_till_now) ].

(** The attributes [__init__] sets on the instance; [headers] joins them
    when [_create_headers] has run. *)
Definition instance_attributes (st : State) : list string :=
  [ "organization_id"; "shopify_partners_access_token"; "logger"; "client" ]
  ++ match self_headers st with Some _ => ["headers"] | None => [] end.

Inductive attribute : Type :=
  | InstanceValue (name : string)
  | BoundMethod (m : method).

(** [self.<name>]: the instance dict, then the class. *)
Definition getattr (name : string) : M attribute :=
  fun st =>
    if decide (name ∈ instance_attributes st) then (inr (InstanceValue name), st)
    else match assoc name Shopify_class with
         | Some m => (inr (BoundMethod m), st)
         | None => (inl (AttributeError "Shopify" name), st)
         end.

(** [_create_headers]: copy the frozen template, put the token in the copy,
    keep the copy as [self.headers]. *)
Definition _create_headers (self : Shopify) : M unit :=
  let* headers := dict_copy HEADERS in
  let* old := dict_getitem headers "X-Shopify-Access-Token" in
  dict_setitem headers "X-Shopify-Access-Token"
    (PyStr.replace ":token:" (shopify_partners_access_token self) old) ;;
  set_self_headers headers.

(** Calling an attribute of the client without arguments, as line 84 does. *)
Definition call_no_args (self : Shopify) (a : attribute) : M unit :=
  match a with
  | InstanceValue _ => raise (TypeError "object is not callable")
  | BoundMethod m_create_headers => _create_headers self
  | BoundMethod m_shopify_partners_transactions => ret tt  (* an unused generator *)
  | BoundMethod m_init => raise (TypeError "__init__() missing 2 required positional arguments")
  | BoundMethod m_start_days_till_now =>
      raise (TypeError "_start_days_till_now() missing 1 required positional argument")
  end.

(** [int(part)] with its [ValueError]. *)
Definition py_int (s : string) : M Z :=
  match PyStr.int s with
  | Some n => ret n
  | None => raise (ValueError "invalid literal for int() with base 10")
  end.

(** [parts[i]] with its [IndexError]. *)
Definition list_index (parts : list string) (i : nat) : M string :=
  match parts !! i with
  | Some p => ret p
  | None => raise (IndexError "list index out of range")
  end.

(** [datetime.utcnow()] and [datetime.now(timezone.utc).replace(microsecond=0)] *)
Definition utcnow : M Calendar.datetime :=
  fun st => (inr (Calendar.utc_of_posix (clock st) None), st).
Definition now_utc : M Calendar.datetime :=
  fun st => (inr (Calendar.utc_of_posix (clock st) (Some 0)), st).

(** [_start_days_till_now], run up to the [yield from]: the day strings it
    goes on to yield. [ns] is the module's namespace; the names [date],
    [rrule], [DAILY] and [datetime] are read from it where the body uses
    them. *)
Definition _start_days_till_now (ns : list string) (start_date : string)
  : M (list string) :=
  let* p0 := list_index (PyStr.split "-" start_date) 0 in
  let* year := py_int p0 in
  let* p1 := list_index (PyStr.split "-" start_date) 1 in
  let* month := py_int (PyStr.lstrip p1) in
  let* p2 := list_index (PyStr.split "-" start_date) 2 in
  let* day := py_int (PyStr.lstrip p2) in
  load_name ns "date" ;;
  let* period := lift (Calendar.date_new year month day) in
  load_name ns "rrule" ;;
  load_name ns "DAILY" ;;
  load_name ns "datetime" ;;
  let* until := utcnow in
  let dates := Calendar.rrule_daily (Calendar.toordinal period)
                 (Calendar.toordinal (Calendar.dt_date until)) in
  ret ((fun n => Calendar.strftime_ymd (Calendar.fromordinal n)) <$> dates).

(** The request body of one day (lines 87-90): both placeholders of the
    query template replaced. *)
Definition build_query (template date_day : string) : string :=
  let query := PyStr.replace ":fromdate:" (date_day +:+ "T00:00:00.000000Z") template in
  PyStr.replace ":todate:" (date_day +:+ "T23:59:59.999999Z") query.

(** [QUERIES['transactions']] *)
Definition lookup_query (env : Env) : M string :=
  match QUERIES env !! "transactions" with
  | Some q => ret q
  | None => raise (KeyError "transactions")
  end.

(** The value of [CLEANERS.get('clean_shopify_partners_transactions', {})]:
    the registered function, or the empty dict given as default. *)
Inductive cleaner_value : Type :=
  | CleanerFunction (f : cleaner_fn)
  | EmptyDict.

Definition lookup_cleaner (env : Env) : cleaner_value :=
  match CLEANERS env !! "clean_shopify_partners_transactions" with
  | Some f => CleanerFunction f
  | None => EmptyDict
  end.

(** [cleaner(date_day, transaction)] *)
Definition call_cleaner (c : cleaner_value) (date_day : string) (transaction : json)
  : exn + json :=
  match c with
  | CleanerFunction f => f date_day transaction
  | EmptyDict => inl (TypeError "'dict' object is not callable")
  end.

(** [yield from (cleaner(date_day, t) for t in edges)]: each edge is
    normalized when the consumer asks for it. *)
Fixpoint yield_cleaned (c : cleaner_value) (date_day : string) (edges : list json)
  (k : Gen) : Gen :=
  match edges with
  | [] => k
  | t :: edges' =>
      fun st =>
        match call_cleaner c date_day t with
        | inr v => Yielded v st (yield_cleaned c date_day edges' k)
        | inl e => Raised e st
        end
  end.

(** [self.headers], read at line 93. *)
Definition get_self_headers : M loc :=
  fun st =>
    match self_headers st with
    | Some l => (inr l, st)
    | None => (inl (AttributeError "Shopify" "headers"), st)
    end.

(** The iterable of line 108, [response_data['data']['transactions']['edges']],
    with the items its iteration gives. *)
Definition edges_of (response_data : json) : exn + list json :=
  match subscript response_data "data" with
  | inr data =>
      match subscript data "transactions" with
      | inr transactions =>
          match subscript transactions "edges" with
          | inr edges => py_iter edges
          | inl e => inl e
          end
      | inl e => inl e
      end
  | inl e => inl e
  end.

(** The body of the loop (lines 87-109) for one day. The call of lines
    91-95 passes [headers] and [data] by keyword. *)
Definition process_day (env : Env) (url : string) (date_day : string) (k : Gen) : Gen :=
  run* template := lookup_query env in
  let query := build_query template date_day in
  run* headers := get_self_headers in
  run* response := client_get env url
                     [("headers", ArgObject headers); ("data", ArgStr query)] in
  let cleaner := lookup_cleaner env in
  run* _ := raise_for_status response in
  run* response_data := response_json response in
  run* items := lift (edges_of response_data) in
  yield_cleaned cleaner date_day items k.

(** The loop of lines 86-109 over the day strings of the windower. *)
Definition transactions_loop (env : Env) (url : string) (days : list string) (k : Gen)
  : Gen :=
  for_each days (process_day env url) k.

(** The URL of lines 79-83. *)
Definition build_url (self : Shopify) : string :=
  let org_id := PyStr.replace ":organization_id:" (organization_id self) API_ORG_ID in
  API_SCHEME +:+ API_BASE_URL +:+ org_id +:+ API_VERSION +:+ API_PATH_CALL_TYPE.

(** [str(kwargs.get('start_date', ''))] *)
Definition start_date_input (kwargs : gmap string pyval) : string :=
  py_str (default (VStr "") (kwargs !! "start_date")).

(** The body of [shopify_partners_transactions]. *)
Definition transactions_body (env : Env) (self : Shopify) (kwargs : gmap string pyval)
  : Gen :=
  run* _ := logger_info "Stream Shopify Partners Transactions" in
  let start_date_input := start_date_input kwargs in
  if decide (start_date_input = "")
  then (fun st => Raised (ValueError "The parameter start_date is required.") st)
  else
    run* start_date := lift (isoparse env start_date_input) in
    run* end_date := now_utc in
    run* _ := logger_info ("Retrieving transactions from "
                +:+ Calendar.str_datetime start_date +:+ " to "
                +:+ Calendar.str_datetime end_date) in
    let kwargs := delete "start_date" kwargs in
    let url := build_url self in
    run* create_headers := getattr "create_headers" in
    run* _ := call_no_args self create_headers in
    run* days := _start_days_till_now module_namespace start_date_input in
    transactions_loop env url days
      (run* _ := logger_info "Finished: shopify_partners_transactions" in
       gen_return).

(** The call [client.shopify_partners_transactions] with keyword arguments. *)
Definition shopify_partners_transactions (env : Env) (self : Shopify)
  (kwargs : gmap string pyval) : State -> generator * State :=
  call_generator_function (transactions_body env self kwargs).

(** ** A test bench: a mocked transport and sample registries *)

Module Mock.

(** A stand-in for [dateutil]'s parser that reads [YYYY-MM-DD]. *)
Definition isoparse_ymd (s : string) : exn + Calendar.datetime :=
  match PyStr.int <$> PyStr.split "-" s with
  | [Some y; Some m; Some d] =>
      match Calendar.date_new y m d with
      | inr dt => inr (Calendar.mkDatetime dt 0 0 0 0 None)
      | inl e => inl e
      end
  | _ => inl (ValueError "Invalid isoformat string")
  end.

Definition query_template : string :=
  "{ transactions(createdAtMin: :fromdate:, createdAtMax: :todate:) { edges { node { id } } } }".

(** A normalizer that tags the edge with its day. *)
Definition tag_day : cleaner_fn :=
  fun date_day transaction =>
    inr (JObj [("day", JStr date_day); ("transaction", transaction)]).

Definition edges_body (edges : list json) : json :=
  JObj [("data", JObj [("transactions", JObj [("edges", JArr edges)])])].

Definition tx (id : string) : json := JObj [("id", JStr id)].

(** A transport that gives every request the same answer. *)
Definition env_answering (cleaners : gmap string cleaner_fn) (r : Response) : Env :=
  mkEnv isoparse_ymd {[ "transactions" := query_template ]} cleaners
        (fun _ => inr r).

Definition cleaners : gmap string cleaner_fn :=
  {[ "clean_shopify_partners_transactions" := tag_day ]}.

Definition two_edges : Response :=
  mkResponse 200 (Some (edges_body [tx "tx1"; tx "tx2"])).
Definition no_edges : Response := mkResponse 200 (Some (edges_body [])).
Definition payment_required : Response := mkResponse 402 None.
Definition not_json : Response := mkResponse 200 None.
Definition no_data : Response := mkResponse 200 (Some (JObj [("errors", JArr [])])).

Definition client : Shopify := mkShopify "1234" "prtapi_secret".

(** 2022-03-01T12:00:00Z and two days later. *)
Definition noon_2022_03_01 : Z := 1646136000.
Definition noon_2022_03_03 : Z := 1646308800.

Definition kwargs_from (start : string) : gmap string pyval :=
  {[ "start_date" := VStr start ]}.

(** The state of a client whose headers were built by [_create_headers]. *)
Definition state_with_headers (now : Z) : State :=
  snd (_create_headers client (initial_state now)).

End Mock.

(** ** Occurrences and substitution, for reasoning about [replace] *)

Local Open Scope list_scope.

(** [x] occurs in [s]. *)
Definition Occ (x s : list ascii) : Prop := exists u v, s = u ++ x ++ v.

(** An occurrence of [x] can run into a block [b] placed after some of its
    characters: a non-empty tail of [x] lines up with the start of [b]. *)
Definition clash (x b : list ascii) : Prop :=
  exists x1 x2, x = x1 ++ x2 /\ x2 <> [] /\ (x2 `prefix_of` b \/ b `prefix_of` x2).

(** [r] is [s] with some occurrences of [a], one after the other, replaced by
    [b]. *)
Inductive Subst (a b : list ascii) : list ascii -> list ascii -> Prop :=
  | Subst_nil : Subst a b [] []
  | Subst_hit s r : Subst a b s r -> Subst a b (a ++ s) (b ++ r)
  | Subst_keep c s r : Subst a b s r -> Subst a b (c :: s) (c :: r).

(** The same, as the scan of [replace] does it: a character is kept only
    where [a] does not start. *)
Inductive Scan (a b : list ascii) : list ascii -> list ascii -> Prop :=
  | Scan_nil : Scan a b [] []
  | Scan_hit s r : Scan a b s r -> Scan a b (a ++ s) (b ++ r)
  | Scan_keep c s r :
      PyStr.starts_with a (c :: s) = false ->
      Scan a b s r -> Scan a b (c :: s) (c :: r).

(** The characters of a day string: digits and the dash. *)
Definition is_day_char (c : ascii) : bool :=
  PyStr.is_digit c || bool_decide (c = "-"%char).

(** A text of digits and dashes, as the windower formats a day. *)
Definition is_day_text (s : string) : bool := forallb is_day_char (PyStr.chars s).

(** The format [YYYY-MM-DD]. *)
Definition is_day_string (s : string) : bool :=
  match PyStr.chars s with
  | [y1; y2; y3; y4; a; m1; m2; b; d1; d2] =>
      forallb PyStr.is_digit [y1; y2; y3; y4; m1; m2; d1; d2]
      && bool_decide (a = "-"%char) && bool_decide (b = "-"%char)
  | _ => false
  end.

(** ** A query template, laid out

    The request body the specification asks for: the template with each
    placeholder replaced by the timestamp it stands for. A template is
    written as its texts and the placeholders between them. *)

Inductive placeholder : Type := FromDate | ToDate.

Definition token (p : placeholder) : string :=
  match p with
  | FromDate => ":fromdate:"
  | ToDate => ":todate:"
  end.

(** The start of the day for [:fromdate:], its end for [:todate:]. *)
Definition stamp (date_day : string) (p : placeholder) : string :=
  match p with
  | FromDate => date_day +:+ "T00:00:00.000000Z"
  | ToDate => date_day +:+ "T23:59:59.999999Z"
  end.

(** Each piece is a text and the placeholder that follows it; [last] is the
    text after the last placeholder. [f] says what is written for a
    placeholder. *)
Fixpoint lay_out (f : placeholder -> string) (pieces : list (string * placeholder))
  (last : string) : string :=
  match pieces with
  | [] => last
  | (text, p) :: pieces' => text +:+ f p +:+ lay_out f pieces' last
  end.

(** The template itself, and the body expected for [date_day]. *)
Definition render : list (string * placeholder) -> string -> string := lay_out token.
Definition fill (date_day : string) : list (string * placeholder) -> string -> string :=
  lay_out (stamp date_day).

(** What is written for a placeholder between the two [replace] calls of
    lines 89 and 90: [:fromdate:] has its timestamp, [:todate:] is still
    there. *)
Definition half_filled (date_day : string) (p : placeholder) : string :=
  match p with
  | FromDate => stamp date_day FromDate
  | ToDate => token ToDate
  end.

(** A text that makes no placeholder of its own, not even with the colon
    of a placeholder next to it. *)
Definition plain_text (text : string) : bool :=
  negb (PyStr.contains ":fromdate:" (":" +:+ text +:+ ":"))
  && negb (PyStr.contains ":todate:" (":" +:+ text +:+ ":")).

(** A pattern starts nowhere in [x] when [x] is followed by [w]. *)
Definition starts_nowhere (a x w : list ascii) : Prop :=
  forall x1 x2, x = x1 ++ x2 -> x2 <> [] -> ~ a `prefix_of` x2 ++ w.

Section StrFacts.

Import PyStr.
Implicit Types (a b x y s r u v : list ascii) (c : ascii).

Lemma starts_with_prefix p s : starts_with p s = true <-> p `prefix_of` s.
Proof.
  revert s; induction p as [|c p IH]; intros s; simpl.
  - split; [intros _; apply prefix_nil | done].
  - destruct s as [|c' s].
    + split; [done | intros [k Hk]; discriminate].
    + case_decide as Hc.
      * subst c'. rewrite IH. split.
        -- apply prefix_cons.
        -- intros H. by apply prefix_cons_inv_2 in H.
      * split; [done | intros H; apply prefix_cons_inv_1 in H; congruence].
Qed.

Lemma find_in_Occ p s : find_in p s = true <-> Occ p s.
Proof.
  induction s as [|c s IH]; simpl.
  - rewrite orb_false_r, starts_with_prefix. split.
    + intros [k ->]. by exists [], k.
    + intros (u & v & H). destruct u; [by exists v | discriminate].
  - rewrite orb_true_iff, starts_with_prefix, IH. split.
    + intros [[k ->] | (u & v & ->)]; [by exists [], k | by exists (c :: u), v].
    + intros (u & v & H). destruct u as [|c' u]; simpl in H.
      * left. by exists v.
      * right. injection H as _ ->. by exists u, v.
Qed.

Lemma find_in_not_Occ p s : find_in p s = false <-> ~ Occ p s.
Proof. rewrite <- find_in_Occ. by destruct (find_in p s). Qed.

Lemma Occ_app_l x s u : Occ x s -> Occ x (u ++ s).
Proof. intros (u' & v & ->). exists (u ++ u'), v. by rewrite <- app_assoc. Qed.

Lemma Occ_app_r x s v : Occ x s -> Occ x (s ++ v).
Proof.
  intros (u & v' & ->). exists u, (v' ++ v). by rewrite <- !app_assoc.
Qed.

Lemma Occ_cons x s c : Occ x s -> Occ x (c :: s).
Proof. apply (Occ_app_l x s [c]). Qed.

Lemma Occ_prefix x s : x `prefix_of` s -> Occ x s.
Proof. intros [k ->]. by exists [], k. Qed.

Lemma Occ_cons_inv x s c : Occ x (c :: s) -> x `prefix_of` (c :: s) \/ Occ x s.
Proof.
  intros (u & v & H). destruct u as [|c' u]; simpl in H.
  - left. exists v. by rewrite H.
  - right. injection H as _ ->. by exists u, v.
Qed.

(** An occurrence in [p ++ q] lies in [p], lies in [q], or starts in [p] and
    ends in [q]. *)
Lemma Occ_app_inv x p q :
  Occ x (p ++ q) ->
  Occ x p \/ Occ x q \/
  exists x1 x2, x = x1 ++ x2 /\ x1 <> [] /\ x2 <> [] /\
                x1 `suffix_of` p /\ x2 `prefix_of` q.
Proof.
  intros (u & v & H).
  apply app_eq_app in H as [l [[-> H] | [-> ->]]].
  - apply app_eq_app in H as [l' [[-> ->] | [-> ->]]].
    + destruct l as [|c l].
      * right; left. by exists [], v.
      * destruct l' as [|c' l'].
        -- left. exists u, []. by rewrite !app_nil_r.
        -- right; right. exists (c :: l), (c' :: l').
           repeat split; try done; [by exists u | by exists v].
    + left. by exists u, l'.
  - right; left. by exists l, v.
Qed.

Lemma prefix_app_cases y b r :
  y `prefix_of` b ++ r -> y `prefix_of` b \/ b `prefix_of` y.
Proof.
  intros [k H]. apply app_eq_app in H as [l [[-> _] | [-> _]]].
  - left. by exists l.
  - right. by exists l.
Qed.

Lemma clash_cons c x b : clash x b -> clash (c :: x) b.
Proof.
  intros (x1 & x2 & -> & Hne & H). by exists (c :: x1), x2.
Qed.

Lemma Scan_Subst a b s r : Scan a b s r -> Subst a b s r.
Proof. induction 1; by constructor. Qed.

(** A pattern that cannot run into a block [b] and starts the result also
    starts the source. *)
Lemma Subst_prefix a b s r :
  Subst a b s r ->
  forall y, ~ clash y b -> y `prefix_of` r -> y `prefix_of` s.
Proof.
  induction 1 as [|s r _ _|c s r _ IH]; intros y Hy Hp.
  - done.
  - destruct y as [|c y]; [apply prefix_nil|].
    destruct Hy. exists [], (c :: y). split; [done|]. split; [done|].
    by eapply prefix_app_cases.
  - destruct y as [|c' y]; [apply prefix_nil|].
    pose proof (prefix_cons_inv_1 _ _ _ _ Hp) as ->.
    apply prefix_cons, IH.
    + intros Hc. by apply Hy, clash_cons.
    + by eapply prefix_cons_inv_2.
Qed.

(** An occurrence that overlaps no block of the result is an occurrence of
    the source. *)
Lemma Subst_Occ a b s r x :
  Subst a b s r ->
  x <> [] -> ~ clash x b -> ~ clash b x -> Occ x r -> Occ x s.
Proof.
  intros HS Hx Hxb Hbx. induction HS as [|s r _ IH|c s r HS IH]; intros HO.
  - done.
  - apply Occ_app_inv in HO as [HO | [HO | HO]].
    + destruct Hbx. destruct HO as (u & v & ->).
      destruct x as [|c x]; [done|].
      exists u, ((c :: x) ++ v). split; [done|]. split; [done|].
      right. by exists v.
    + by apply Occ_app_l, IH.
    + destruct HO as (x1 & x2 & -> & Hx1 & _ & [u ->] & _).
      destruct Hbx. exists u, x1. split; [done|]. split; [done|].
      left. by exists x2.
  - apply Occ_cons_inv in HO as [HO | HO].
    + apply Occ_prefix.
      eapply (Subst_prefix a b (c :: s) (c :: r)); [by constructor | done | done].
    + by apply Occ_cons, IH.
Qed.

(** The scan leaves no occurrence of the replaced pattern, when the
    pattern and its replacement do not overlap. *)
Lemma Scan_removes a b s r :
  Scan a b s r ->
  a <> [] -> ~ clash a b -> ~ clash b a -> ~ Occ a r.
Proof.
  intros HS Ha Hab Hba. induction HS as [|s r _ IH|c s r Hk HS IH]; intros HO.
  - destruct HO as (u & v & H). by destruct u, a.
  - apply Occ_app_inv in HO as [HO | [HO | HO]]; [| done |].
    + destruct Hba. destruct HO as (u & v & ->).
      destruct a as [|c a]; [done|].
      exists u, ((c :: a) ++ v). split; [done|]. split; [done|].
      right. by exists v.
    + destruct HO as (x1 & x2 & Hx & Hx1 & _ & [u ->] & _).
      destruct Hba. exists u, x1. split; [done|]. split; [done|].
      left. by exists x2.
  - apply Occ_cons_inv in HO as [HO | HO]; [| done].
    assert (a `prefix_of` c :: s) as Hp.
    { eapply (Subst_prefix a b (c :: s) (c :: r)); [|done|done].
      constructor. by apply Scan_Subst. }
    apply starts_with_prefix in Hp. congruence.
Qed.

End StrFacts.

Section ScanFacts.

Import PyStr.
Implicit Types (a b x y s r u v w : list ascii) (c : ascii).

Lemma replace_from_skip a b u s :
  replace_from a b (length u) (u ++ s) = replace_from a b 0 s.
Proof. induction u as [|c u IH]; [done | apply IH]. Qed.

(** [replace_from] performs the scan. *)
Lemma replace_from_Scan a b s :
  a <> [] -> Scan a b s (replace_from a b 0 s).
Proof.
  intros Ha. remember (length s) as n eqn:Hn.
  revert s Hn. induction (lt_wf n) as [n _ IH]. intros s ->.
  destruct s as [|c s]; [constructor|].
  simpl. destruct (starts_with a (c :: s)) eqn:E.
  - pose proof E as [k Hk]%starts_with_prefix.
    destruct a as [|c' a]; [done|]. simplify_eq/=.
    rewrite Nat.sub_0_r, replace_from_skip.
    apply (Scan_hit (c' :: a) b k).
    eapply IH; [|done]. rewrite length_app. lia.
  - constructor; [done|]. eapply IH; [|done]. simpl. lia.
Qed.

(** Nothing changes where the pattern does not occur. *)
Lemma Subst_id a b x r : Subst a b x r -> a <> [] -> ~ Occ a x -> r = x.
Proof.
  intros HS Ha. induction HS as [|s r _ _|c s r _ IH]; intros HO.
  - done.
  - destruct HO. apply Occ_prefix. by exists s.
  - f_equal. apply IH. intros H. by apply HO, Occ_cons.
Qed.

End ScanFacts.

Section QueryFacts.

Import PyStr.
Implicit Types (a b x y s r u v w d : list ascii) (c : ascii).

Lemma chars_app (s1 s2 : string) : chars (s1 +:+ s2) = chars s1 ++ chars s2.
Proof.
  induction s1 as [|c s1 IH]; [done|].
  change (chars (String c (s1 +:+ s2)) = c :: chars s1 ++ chars s2).
  simpl. by rewrite <- IH.
Qed.

Lemma chars_of_chars l : chars (of_chars l) = l.
Proof. apply list_ascii_of_string_of_list_ascii. Qed.

Lemma of_chars_chars (s : string) : of_chars (chars s) = s.
Proof. apply string_of_list_ascii_of_string. Qed.

Lemma contains_Occ (p s : string) :
  contains p s = true <-> Occ (chars p) (chars s).
Proof. apply find_in_Occ. Qed.

Lemma contains_not_Occ (p s : string) :
  contains p s = false <-> ~ Occ (chars p) (chars s).
Proof. apply find_in_not_Occ. Qed.

(** [replace] performs the scan, for a non-empty pattern. *)
Lemma replace_Scan (old new s : string) :
  chars old <> [] ->
  Scan (chars old) (chars new) (chars s) (chars (replace old new s)).
Proof.
  intros Ho. unfold replace, replace_chars. rewrite chars_of_chars.
  destruct (chars old) eqn:E; [done|]. by apply replace_from_Scan.
Qed.

Lemma no_clash_head x b c : head b = Some c -> c ∉ x -> ~ clash x b.
Proof.
  intros Hb Hc (x1 & x2 & -> & Hx2 & H). apply Hc.
  destruct x2 as [|c2 x2]; [done|]. destruct b as [|c' b]; simplify_eq/=.
  assert (c2 = c) as ->; [|apply elem_of_app; right; left].
  destruct H as [H | H]; apply prefix_cons_inv_1 in H; congruence.
Qed.

Lemma no_clash_last x b c e :
  last x = Some c -> c ∉ b -> e ∈ b -> e ∉ x -> ~ clash x b.
Proof.
  intros Hl Hc He Hx (x1 & x2 & -> & Hx2 & [[k ->] | [k ->]]).
  - apply Hc. rewrite last_app in Hl.
    destruct (last x2) eqn:E; [|by apply last_None in E].
    simplify_eq. apply last_Some in E as [l' ->].
    rewrite !elem_of_app, list_elem_of_singleton. auto.
  - apply Hx. rewrite !elem_of_app. auto.
Qed.

(** A timestamp [d ++ lit] of a day string and a literal tail overlaps no
    pattern [P] made of characters foreign to day strings. *)
Lemma stamp_no_clash P d lit c0 lit' z e :
  Forall (fun c => is_day_char c = true) d ->
  Forall (fun c => is_day_char c = false) P ->
  lit = c0 :: lit' -> c0 ∉ P ->
  last lit = Some z -> z ∉ P ->
  e ∈ P -> e ∉ lit ->
  ~ clash P (d ++ lit) /\ ~ clash (d ++ lit) P.
Proof.
  intros Hd HP Hlit Hc0 Hz HzP He Helit. split.
  - destruct d as [|c d].
    + apply (no_clash_head _ _ c0); [by subst lit | done].
    + apply (no_clash_head _ _ c); [done|].
      intros Hc. apply Forall_cons in Hd as [Hd _].
      rewrite Forall_forall in HP. apply HP in Hc. congruence.
  - apply (no_clash_last _ _ z e); [| done | done |].
    + rewrite last_app, Hz. done.
    + intros [H | H]%elem_of_app; [|done].
      rewrite Forall_forall in Hd, HP. apply Hd in H. apply HP in He. congruence.
Qed.

End QueryFacts.
(** ** The scan of [replace] over a laid-out template *)

Section Layout.

Import PyStr.
Implicit Types (a b x y s r u v w t : list ascii) (c : ascii).

(** At an occurrence the scan writes the replacement and goes on after it. *)
Lemma replace_from_hit a b s :
  a <> [] -> replace_from a b 0 (a ++ s) = b ++ replace_from a b 0 s.
Proof.
  intros Ha. destruct a as [|c a]; [done|].
  change (replace_from (c :: a) b 0 ((c :: a) ++ s))
    with (if starts_with (c :: a) ((c :: a) ++ s)
          then b ++ replace_from (c :: a) b (length (c :: a) - 1) (a ++ s)
          else c :: replace_from (c :: a) b 0 (a ++ s)).
  assert (starts_with (c :: a) ((c :: a) ++ s) = true) as ->.
  { apply starts_with_prefix. by exists s. }
  replace (length (c :: a) - 1)%nat with (length a) by (simpl; lia).
  by rewrite replace_from_skip.
Qed.

(** Where the pattern starts nowhere the scan copies. *)
Lemma replace_from_keep a b x w :
  starts_nowhere a x w -> replace_from a b 0 (x ++ w) = x ++ replace_from a b 0 w.
Proof.
  induction x as [|c x IH]; intros H; [done|].
  change (replace_from a b 0 ((c :: x) ++ w))
    with (if starts_with a (c :: x ++ w)
          then b ++ replace_from a b (length a - 1) (x ++ w)
          else c :: replace_from a b 0 (x ++ w)).
  destruct (starts_with a (c :: x ++ w)) eqn:E.
  - apply starts_with_prefix in E. by destruct (H [] (c :: x)).
  - rewrite IH; [done|]. intros x1 x2 -> Hx2. by apply (H (c :: x1) x2).
Qed.

(** Characters that do not start the pattern. *)
Lemma starts_nowhere_foreign a x w c0 :
  head a = Some c0 -> Forall (fun c => c <> c0) x -> starts_nowhere a x w.
Proof.
  intros Ha Hx x1 x2 -> Hx2 Hp.
  apply Forall_app in Hx as [_ Hx].
  destruct x2 as [|c x2]; [done|]. apply Forall_cons in Hx as [Hc _].
  destruct a as [|c' a]; simplify_eq/=.
  apply prefix_cons_inv_1 in Hp. congruence.
Qed.

(** A text without the pattern, followed by a character foreign to the
    pattern. *)
Lemma starts_nowhere_before_foreign a x w c :
  ~ Occ a x -> head w = Some c -> c ∉ a -> starts_nowhere a x w.
Proof.
  intros Hx Hw Hc x1 x2 -> Hx2 Hp.
  destruct (prefix_app_cases _ _ _ Hp) as [H | [k ->]].
  - apply Hx. by apply Occ_app_l, Occ_prefix.
  - apply prefix_app_inv in Hp. destruct k as [|c' k].
    + apply Hx. rewrite app_nil_r. apply Occ_app_l. exists [], []. by rewrite app_nil_r.
    + destruct w as [|c'' w]; simplify_eq/=.
      apply prefix_cons_inv_1 in Hp as ->.
      apply Hc. rewrite elem_of_app. right. left.
Qed.

Lemma starts_nowhere_end a x : ~ Occ a x -> starts_nowhere a x [].
Proof.
  intros Hx x1 x2 -> _ Hp. rewrite app_nil_r in Hp.
  apply Hx. by apply Occ_app_l, Occ_prefix.
Qed.

(** A pattern closed by a delimiter that its inside does not hold ends at the
    first delimiter it meets. *)
Lemma delimited_prefix c0 B t w :
  c0 ∉ B -> (B ++ [c0]) `prefix_of` (t ++ c0 :: w) ->
  (B ++ [c0]) `prefix_of` (t ++ [c0]).
Proof.
  revert t. induction B as [|c B IH]; intros t HB Hp.
  - destruct t as [|c t]; [done|].
    apply prefix_cons_inv_1 in Hp as <-. apply prefix_cons, prefix_nil.
  - apply not_elem_of_cons in HB as [Hc HB].
    destruct t as [|c' t].
    + apply prefix_cons_inv_1 in Hp. congruence.
    + pose proof (prefix_cons_inv_1 _ _ _ _ Hp) as ->.
      apply prefix_cons, IH; [done|]. by eapply prefix_cons_inv_2.
Qed.

(** A text that holds no delimited pattern, its two neighbours' delimiters
    counted in, lets none start before a delimiter. *)
Lemma starts_nowhere_before_delimiter c0 B t w :
  c0 ∉ B -> ~ Occ (c0 :: B ++ [c0]) (c0 :: t ++ [c0]) ->
  starts_nowhere (c0 :: B ++ [c0]) t (c0 :: w).
Proof.
  intros HB Ht x1 x2 -> Hx2 Hp. apply Ht.
  destruct x2 as [|c x2]; [done|].
  pose proof (prefix_cons_inv_1 _ _ _ _ Hp) as <-.
  apply prefix_cons_inv_2, delimited_prefix in Hp as [k Hk]; [|done].
  exists (c0 :: x1), k. simpl. f_equal.
  rewrite <- !app_assoc. simpl. f_equal. f_equal.
  rewrite <- app_assoc in Hk. exact Hk.
Qed.

Lemma delimiter_starts_none c0 B t w :
  c0 ∉ B -> ~ Occ (c0 :: B ++ [c0]) (c0 :: t ++ [c0]) ->
  ~ (c0 :: B ++ [c0]) `prefix_of` (c0 :: t ++ c0 :: w).
Proof.
  intros HB Ht Hp. apply Ht.
  apply prefix_cons_inv_2, delimited_prefix in Hp; [|done].
  apply Occ_prefix. by apply prefix_cons.
Qed.

Lemma delimiter_starts_none_end c0 B t :
  ~ Occ (c0 :: B ++ [c0]) (c0 :: t ++ [c0]) ->
  ~ (c0 :: B ++ [c0]) `prefix_of` (c0 :: t).
Proof.
  intros Ht Hp. apply Ht. apply Occ_prefix.
  destruct Hp as [k Hk]. exists (k ++ [c0]).
  change (c0 :: t ++ [c0]) with ((c0 :: t) ++ [c0]). rewrite Hk.
  by rewrite <- !app_assoc.
Qed.

Lemma not_Occ_inside x c1 t c2 : ~ Occ x (c1 :: t ++ [c2]) -> ~ Occ x t.
Proof. intros H Ht. by apply H, Occ_cons, Occ_app_r. Qed.

End Layout.
(** ** The request body of a day *)

Section BuildQueryClaim.

Import PyStr.
Implicit Types (d text last : string) (pieces : list (string * placeholder)).

Local Abbreviation colon := (":"%char).
Local Abbreviation F := (chars ":fromdate:").
Local Abbreviation T := (chars ":todate:").

Lemma chars_lay_out_cons f text p pieces last :
  chars (lay_out f ((text, p) :: pieces) last)
  = chars text ++ chars (f p) ++ chars (lay_out f pieces last).
Proof. cbn [lay_out]. by rewrite !chars_app. Qed.

Lemma plain_text_Occ text :
  plain_text text = true ->
  ~ Occ F (colon :: chars text ++ [colon]) /\ ~ Occ T (colon :: chars text ++ [colon]).
Proof.
  unfold plain_text.
  rewrite andb_true_iff, !negb_true_iff, !contains_not_Occ, !chars_app. done.
Qed.

Lemma is_day_text_chars d :
  is_day_text d = true -> Forall (fun c => is_day_char c = true) (chars d).
Proof. unfold is_day_text. rewrite forallb_forall, Forall_forall. intros H c Hc. apply H. by apply list_elem_of_In. Qed.

Lemma token_head p : chars (token p) = colon :: tail (chars (token p)).
Proof. by destruct p. Qed.

(** The colon that ends a placeholder starts no [:fromdate:] with the text
    that follows. *)
Lemma colon_before_template pieces last :
  Forall (fun tp => plain_text tp.1 = true) pieces -> plain_text last = true ->
  ~ F `prefix_of` colon :: chars (render pieces last).
Proof.
  intros Hp Hl. destruct pieces as [|[text p] pieces].
  - apply plain_text_Occ in Hl as [Hl _].
    apply (delimiter_starts_none_end colon (chars "fromdate")). exact Hl.
  - apply Forall_cons in Hp as [[Ht _]%plain_text_Occ _].
    unfold render. rewrite chars_lay_out_cons, token_head, <- app_comm_cons.
    apply (delimiter_starts_none colon (chars "fromdate")); [compute_done | exact Ht].
Qed.

(** Line 89 on a laid-out template: every [:fromdate:] has its timestamp,
    the rest is as it was. *)
Lemma first_replace_lay_out b pieces last d :
  b = chars (stamp d FromDate) ->
  Forall (fun tp => plain_text tp.1 = true) pieces -> plain_text last = true ->
  replace_from F b 0 (chars (render pieces last))
  = chars (lay_out (half_filled d) pieces last).
Proof.
  intros Hb Hp Hl. induction pieces as [|[text p] pieces IH].
  - cbn [render lay_out]. rewrite <- (app_nil_r (chars last)) at 1.
    rewrite replace_from_keep; [by rewrite app_nil_r|].
    apply starts_nowhere_end. apply plain_text_Occ in Hl as [Hl _].
    by eapply not_Occ_inside.
  - pose proof (colon_before_template pieces last) as Hc.
    apply Forall_cons in Hp as [Ht Hp]. specialize (IH Hp). specialize (Hc Hp Hl).
    apply plain_text_Occ in Ht as [Ht _].
    unfold render in *. rewrite !chars_lay_out_cons.
    rewrite replace_from_keep.
    2: { rewrite token_head, <- app_comm_cons.
         apply (starts_nowhere_before_delimiter colon (chars "fromdate"));
           [compute_done | exact Ht]. }
    f_equal. destruct p; cbn [token half_filled].
    + rewrite replace_from_hit by done. by rewrite IH, Hb.
    + rewrite <- IH. revert Hc. generalize (chars (lay_out token pieces last)).
      intros R Hc.
      transitivity (chars ":todate" ++ replace_from F b 0 (colon :: R));
        [reflexivity|].
      change (replace_from F b 0 (colon :: R))
        with (if starts_with F (colon :: R)
              then b ++ replace_from F b (length F - 1) R
              else colon :: replace_from F b 0 R).
      destruct (starts_with F (colon :: R)) eqn:E; [|reflexivity].
      by apply starts_with_prefix in E.
Qed.

(** A day text and a placeholder share no character. *)
Lemma day_char_not_in_placeholder c p :
  is_day_char c = true -> c ∉ chars (token p).
Proof.
  intros Hc Hin.
  assert (Forall (fun c' => is_day_char c' = false) (chars (token p))) as H
    by (destruct p; by repeat constructor).
  rewrite Forall_forall in H. apply H in Hin. congruence.
Qed.

(** The timestamps start with a character that no placeholder holds. *)
Lemma stamp_head d p w :
  is_day_text d = true ->
  exists c, head (chars (stamp d p) ++ w) = Some c /\ c ∉ T.
Proof.
  intros Hd%is_day_text_chars.
  assert (chars (stamp d p) = chars d ++ "T"%char :: tail (chars (stamp "" p))) as ->
    by (destruct p; apply chars_app).
  destruct (chars d) as [|c l].
  - exists "T"%char. split; [done | compute_done].
  - exists c. split; [done|]. apply Forall_cons in Hd as [Hc _].
    by apply (day_char_not_in_placeholder c ToDate).
Qed.

(** The scan for [:todate:] copies the timestamp of [:fromdate:]. *)
Lemma second_replace_keeps_stamp b d R :
  is_day_text d = true ->
  replace_from T b 0 (chars (stamp d FromDate) ++ R)
  = chars (stamp d FromDate) ++ replace_from T b 0 R.
Proof.
  intros Hd%is_day_text_chars. cbn [stamp]. rewrite chars_app, <- !app_assoc.
  rewrite replace_from_keep; [reflexivity|].
  apply (starts_nowhere_foreign _ _ _ colon); [done|].
  eapply Forall_impl; [exact Hd|]. intros c Hc ->. discriminate Hc.
Qed.

(** Line 90 on what line 89 gives: every [:todate:] has its timestamp. *)
Lemma second_replace_lay_out b pieces last d :
  b = chars (stamp d ToDate) ->
  is_day_text d = true ->
  Forall (fun tp => plain_text tp.1 = true) pieces -> plain_text last = true ->
  replace_from T b 0 (chars (lay_out (half_filled d) pieces last))
  = chars (fill d pieces last).
Proof.
  intros Hb Hd Hp Hl. induction pieces as [|[text p] pieces IH].
  - cbn [fill lay_out]. rewrite <- (app_nil_r (chars last)) at 1.
    rewrite replace_from_keep; [by rewrite app_nil_r|].
    apply starts_nowhere_end. apply plain_text_Occ in Hl as [_ Hl].
    by eapply not_Occ_inside.
  - apply Forall_cons in Hp as [Ht Hp]. specialize (IH Hp).
    apply plain_text_Occ in Ht as [_ Ht].
    unfold fill in *. rewrite !chars_lay_out_cons. destruct p; cbn [half_filled token].
    + destruct (stamp_head d FromDate (chars (lay_out (half_filled d) pieces last)) Hd)
        as (c & Hc & HcT).
      rewrite replace_from_keep;
        [| by apply (starts_nowhere_before_foreign _ _ _ c);
             [eapply not_Occ_inside | |]].
      by rewrite second_replace_keeps_stamp, IH.
    + rewrite replace_from_keep.
      2: { apply (starts_nowhere_before_delimiter colon (chars "todate"));
             [compute_done | exact Ht]. }
      rewrite replace_from_hit by done. by rewrite IH, Hb.
Qed.

Lemma replace_chars_scan (old new s : list ascii) :
  old <> [] -> replace_chars old new s = replace_from old new 0 s.
Proof. by destruct old. Qed.

(** The body built for a laid-out template is the template filled in. *)
Lemma build_query_lay_out d pieces last :
  is_day_text d = true ->
  Forall (fun tp => plain_text tp.1 = true) pieces -> plain_text last = true ->
  build_query (render pieces last) d = fill d pieces last.
Proof.
  intros Hd Hp Hl. unfold build_query, replace.
  rewrite !replace_chars_scan by done. rewrite chars_of_chars.
  rewrite (first_replace_lay_out _ pieces last d) by done.
  rewrite (second_replace_lay_out _ pieces last d) by done.
  apply of_chars_chars.
Qed.

(** What is written for a placeholder of the layout is in the text. *)
Lemma lay_out_contains f pieces last :
  Forall (fun tp => contains (f tp.2) (lay_out f pieces last) = true) pieces.
Proof.
  induction pieces as [|[text p] pieces IH]; constructor.
  - apply contains_Occ. rewrite chars_lay_out_cons. by eexists _, _.
  - eapply Forall_impl; [exact IH|]. intros tp. rewrite !contains_Occ.
    rewrite chars_lay_out_cons. intros H. by do 2 apply Occ_app_l.
Qed.

(** A timestamp and a placeholder do not overlap. *)
Lemma stamp_token_no_clash d p q :
  is_day_text d = true ->
  (~ clash (chars (token q)) (chars (stamp d p))) /\
  (~ clash (chars (stamp d p)) (chars (token q))).
Proof.
  intros Hd%is_day_text_chars.
  assert (exists lit', chars (stamp d p) = chars d ++ "T"%char :: lit' /\
                       last ("T"%char :: lit') = Some "Z"%char /\
                       "e"%char ∉ "T"%char :: lit') as (lit' & -> & Hz & He).
  { destruct p; cbn [stamp]; rewrite chars_app; eexists;
      (split; [reflexivity | split; [reflexivity | compute_done]]). }
  apply (stamp_no_clash _ _ _ "T"%char lit' "Z"%char "e"%char); try done.
  - destruct q; by repeat constructor.
  - destruct q; compute_done.
  - destruct q; compute_done.
  - destruct q; compute_done.
Qed.

(** No placeholder is left in a request body, whatever the template. *)
Lemma build_query_leaves_no_placeholder template d :
  is_day_text d = true ->
  contains ":fromdate:" (build_query template d) = false /\
  contains ":todate:" (build_query template d) = false.
Proof.
  intros Hd. rewrite !contains_not_Occ. unfold build_query.
  set (R1 := d +:+ "T00:00:00.000000Z"). set (R2 := d +:+ "T23:59:59.999999Z").
  set (q1 := replace ":fromdate:" R1 template).
  pose proof (replace_Scan ":fromdate:" R1 template ltac:(done)) as S1.
  pose proof (replace_Scan ":todate:" R2 q1 ltac:(done)) as S2.
  fold q1 in S1.
  destruct (stamp_token_no_clash d FromDate FromDate Hd) as [HF1 H1F].
  destruct (stamp_token_no_clash d ToDate FromDate Hd) as [HF2 H2F].
  destruct (stamp_token_no_clash d ToDate ToDate Hd) as [HT2 H2T].
  assert (~ Occ F (chars q1)) as HFq1 by by eapply Scan_removes.
  split.
  - intros H. apply HFq1.
    eapply (Subst_Occ T (chars R2)); [by apply Scan_Subst | done..].
  - by eapply Scan_removes.
Qed.


End BuildQueryClaim.



(** ** The generator, end to end *)

Section Generator.

Context (env : Env) (self : Shopify).
Implicit Types (kwargs : gmap string pyval) (st : State).

Lemma create_headers_not_an_attribute st :
  "create_headers" ∉ instance_attributes st.
Proof. unfold instance_attributes. destruct (self_headers st); compute_done. Qed.

(** [self.create_headers] resolves to nothing: the class defines
    [_create_headers]. *)
Lemma getattr_create_headers st :
  getattr "create_headers" st = (inl (AttributeError "Shopify" "create_headers"), st).
Proof.
  unfold getattr. destruct (decide _) as [H|_]; [|done].
  by apply create_headers_not_an_attribute in H.
Qed.

(** The state after the first log line, and after the second. *)
Lemma body_without_start_date kwargs st :
  start_date_input kwargs = "" ->
  transactions_body env self kwargs st =
    Raised (ValueError "The parameter start_date is required.")
           (snd (logger_info "Stream Shopify Partners Transactions" st)).
Proof.
  intros H. unfold transactions_body, gen_bind. simpl.
  by destruct (decide _).
Qed.

Lemma body_with_start_date kwargs st dt :
  start_date_input kwargs <> "" ->
  isoparse env (start_date_input kwargs) = inr dt ->
  exists st',
    transactions_body env self kwargs st =
      Raised (AttributeError "Shopify" "create_headers") st' /\
    requests st' = requests st /\ heap st' = heap st /\
    self_headers st' = self_headers st.
Proof.
  intros Hne Hp. unfold transactions_body, gen_bind. simpl.
  destruct (decide _) as [|_]; [done|].
  unfold lift. rewrite Hp. simpl. rewrite getattr_create_headers.
  eexists. split; [done|]. done.
Qed.

Lemma body_with_bad_start_date kwargs st e :
  start_date_input kwargs <> "" ->
  isoparse env (start_date_input kwargs) = inl e ->
  transactions_body env self kwargs st =
    Raised e (snd (logger_info "Stream Shopify Partners Transactions" st)).
Proof.
  intros Hne Hp. unfold transactions_body, gen_bind. simpl.
  destruct (decide _) as [|_]; [done|].
  unfold lift. by rewrite Hp.
Qed.

(** Whatever the arguments, the generator yields nothing and sends nothing:
    it always ends in an exception. *)
Lemma transactions_never_yields kwargs st :
  exists e st',
    transactions_body env self kwargs st = Raised e st' /\
    requests st' = requests st.
Proof.
  destruct (decide (start_date_input kwargs = "")) as [H|H].
  - rewrite body_without_start_date by done. by eexists _, _.
  - destruct (isoparse env (start_date_input kwargs)) as [e|dt] eqn:Hp.
    + rewrite (body_with_bad_start_date _ _ e) by done. by eexists _, _.
    + destruct (body_with_start_date kwargs st dt H Hp) as (st' & -> & ? & _).
      by eexists _, _.
Qed.

Lemma start_date_input_missing kwargs :
  kwargs !! "start_date" = None \/ kwargs !! "start_date" = Some (VStr "") ->
  start_date_input kwargs = "".
Proof. unfold start_date_input. by intros [-> | ->]. Qed.

(** C3. When [start_date] is absent or the empty string, advancing the
    generator raises [ValueError]; no request has been sent when it is
    raised, and none is sent afterwards: the generator is exhausted. *)
Theorem missing_start_date_raises kwargs st :
  kwargs !! "start_date" = None \/ kwargs !! "start_date" = Some (VStr "") ->
  exists g st',
    shopify_partners_transactions env self kwargs st = (g, st) /\
    next g st = (Raise (ValueError "The parameter start_date is required."),
                 Finished, st') /\
    requests st' = requests st /\
    forall st'', next Finished st'' = (StopIteration, Finished, st'').
Proof.
  intros H%start_date_input_missing.
  eexists _, _. split; [reflexivity|]. simpl.
  rewrite body_without_start_date by done. done.
Qed.

(** C9, amended. With a non-empty [start_date], advancing the generator
    raises: what the date parser raises when it rejects the text (line 68),
    and otherwise [AttributeError] for [create_headers] (line 84), the class
    defining only [_create_headers]. In both cases no request has been sent,
    and the run, taken to its end, has yielded no record. *)
Theorem create_headers_is_missing kwargs st :
  start_date_input kwargs <> "" ->
  exists st',
    let e := match isoparse env (start_date_input kwargs) with
             | inl e => e
             | inr _ => AttributeError "Shopify" "create_headers"
             end in
    next (fst (shopify_partners_transactions env self kwargs st)) st
      = (Raise e, Finished, st') /\
    drain (transactions_body env self kwargs st) = ([], inl e, st') /\
    requests st' = requests st.
Proof.
  intros Hne. cbn [shopify_partners_transactions call_generator_function fst next].
  destruct (isoparse env (start_date_input kwargs)) as [e|dt] eqn:Hp.
  - rewrite (body_with_bad_start_date kwargs st e Hne Hp). by eexists.
  - destruct (body_with_start_date kwargs st dt Hne Hp) as (st' & Hb & Hr & _).
    exists st'. by rewrite Hb.
Qed.


(** C10. The call itself runs nothing: it returns the suspended generator and
    leaves the state as it was. The first log line and the [ValueError] for a
    missing [start_date], absent or empty, come with the first [next]. *)
Theorem call_defers_the_body kwargs st :
  shopify_partners_transactions env self kwargs st
    = (Suspended (transactions_body env self kwargs), st) /\
  (let g := fst (shopify_partners_transactions env self (delete "start_date" kwargs) st) in
   exists st', next g st = (Raise (ValueError "The parameter start_date is required."),
                            Finished, st') /\
               log st' = log st ++ ["Stream Shopify Partners Transactions"]) /\
  (let g := fst (shopify_partners_transactions env self
                   (<["start_date" := VStr ""]> kwargs) st) in
   exists st', next g st = (Raise (ValueError "The parameter start_date is required."),
                            Finished, st') /\
               log st' = log st ++ ["Stream Shopify Partners Transactions"]).
Proof.
  split; [done|]. split; simpl.
  - rewrite body_without_start_date; [by eexists|].
    apply start_date_input_missing. left. apply lookup_delete_eq.
  - rewrite body_without_start_date; [by eexists|].
    apply start_date_input_missing. right. apply lookup_insert_eq.
Qed.

End Generator.

(** An empty keyword dict meets the hypothesis of C3. *)
Lemma missing_start_date_raises_witness :
  exists g st',
    shopify_partners_transactions (Mock.env_answering Mock.cleaners Mock.two_edges)
      Mock.client ∅ (initial_state 0) = (g, initial_state 0) /\
    next g (initial_state 0)
      = (Raise (ValueError "The parameter start_date is required."), Finished, st') /\
    requests st' = requests (initial_state 0) /\
    forall st'', next Finished st'' = (StopIteration, Finished, st'').
Proof.
  apply (missing_start_date_raises (Mock.env_answering Mock.cleaners Mock.two_edges)
           Mock.client ∅ (initial_state 0)).
  left. reflexivity.
Defined.

(** The start date [2022-03-01] meets the hypothesis of C9. *)
Lemma create_headers_is_missing_witness :
  let env := Mock.env_answering Mock.cleaners Mock.two_edges in
  let kwargs := Mock.kwargs_from "2022-03-01" in
  let st := initial_state Mock.noon_2022_03_01 in
  exists st',
    let e := match isoparse env (start_date_input kwargs) with
             | inl e => e
             | inr _ => AttributeError "Shopify" "create_headers"
             end in
    next (fst (shopify_partners_transactions env Mock.client kwargs st)) st
      = (Raise e, Finished, st') /\
    drain (transactions_body env Mock.client kwargs st) = ([], inl e, st') /\
    requests st' = requests st.
Proof.
  intros env kwargs st.
  apply (create_headers_is_missing env Mock.client kwargs st).
  vm_compute. discriminate.
Defined.

(** C9 as stated fails: [garbage] is a non-empty start date, the date
    parser rejects it, and the first [next] raises the parser's [ValueError]
    at line 68, not [AttributeError]. *)
Lemma rejected_start_date_raises_value_error :
  let env := Mock.env_answering Mock.cleaners Mock.two_edges in
  let kwargs := Mock.kwargs_from "garbage" in
  let st := initial_state Mock.noon_2022_03_01 in
  start_date_input kwargs <> "" /\
  exists msg st',
    next (fst (shopify_partners_transactions env Mock.client kwargs st)) st
      = (Raise (ValueError msg), Finished, st').
Proof. split; [by vm_compute | by eexists _, _]. Qed.


(** ** Header composition *)

Section Headers.

Implicit Types (st : State) (h : gmap loc object).

Lemma replace_token (t : string) : PyStr.replace ":token:" t ":token:" = t.
Proof.
  unfold PyStr.replace, PyStr.replace_chars. simpl.
  rewrite app_nil_r. apply string_of_list_ascii_of_string.
Qed.

Lemma mapping_items_insert_fresh h l o l0 m :
  h !! l = None ->
  mapping_items l0 h = Some m -> mapping_items l0 (<[l := o]> h) = Some m.
Proof.
  intros Hl. unfold mapping_items.
  destruct (h !! l0) as [[m0|t]|] eqn:E0; [| |done].
  - intros ?. rewrite lookup_insert_ne by congruence. by rewrite E0.
  - destruct (h !! t) as [[m1|?]|] eqn:E1; try done.
    intros ?. rewrite lookup_insert_ne by congruence. rewrite E0.
    rewrite lookup_insert_ne by congruence. by rewrite E1.
Qed.

(** What [_create_headers] does to the state: one new dict, the template
    with the token in it, bound to [self.headers]. *)
Lemma create_headers_state (self : Shopify) st :
  mapping_items HEADERS (heap st) = Some HEADERS_template ->
  let l := fresh (dom (heap st)) in
  _create_headers self st =
    (inr tt,
     mkState (<[l := ODict (<["X-Shopify-Access-Token" :=
                                shopify_partners_access_token self]> HEADERS_template)]>
                (heap st))
             (Some l) (log st) (requests st) (clock st)).
Proof.
  intros H l. unfold _create_headers, bind, dict_copy. rewrite H. fold l. simpl.
  unfold dict_getitem, mapping_items. simpl. rewrite lookup_insert_eq.
  change (HEADERS_template !! "X-Shopify-Access-Token") with (Some ":token:").
  unfold dict_setitem. simpl. rewrite lookup_insert_eq. simpl.
  by rewrite insert_insert_eq, replace_token.
Qed.

Lemma fresh_not_allocated h : h !! fresh (dom h) = None.
Proof. apply not_elem_of_dom, is_fresh. Qed.

(** C7. Two successive calls of [_create_headers], for any two tokens, give
    two distinct new dicts, each the template with its own token under
    [X-Shopify-Access-Token]; the first is not touched by the second call,
    every object that existed before is unchanged, and [HEADERS] still shows
    the template. *)
Theorem create_headers_leaves_template (self1 self2 : Shopify) st :
  mapping_items HEADERS (heap st) = Some HEADERS_template ->
  exists l1 l2 st1 st2,
    _create_headers self1 st = (inr tt, st1) /\
    _create_headers self2 st1 = (inr tt, st2) /\
    self_headers st1 = Some l1 /\ self_headers st2 = Some l2 /\
    l1 <> l2 /\ heap st !! l1 = None /\ heap st !! l2 = None /\
    heap st1 !! l1 = Some (ODict (<["X-Shopify-Access-Token" :=
                             shopify_partners_access_token self1]> HEADERS_template)) /\
    heap st2 !! l1 = heap st1 !! l1 /\
    heap st2 !! l2 = Some (ODict (<["X-Shopify-Access-Token" :=
                             shopify_partners_access_token self2]> HEADERS_template)) /\
    (forall l o, heap st !! l = Some o -> heap st2 !! l = Some o) /\
    mapping_items HEADERS (heap st2) = Some HEADERS_template.
Proof.
  intros H.
  pose proof (create_headers_state self1 st H) as E1. simpl in E1.
  set (l1 := fresh (dom (heap st))) in *.
  set (m1 := <["X-Shopify-Access-Token" := shopify_partners_access_token self1]>
               HEADERS_template) in *.
  set (st1 := mkState (<[l1 := ODict m1]> (heap st)) (Some l1) (log st)
                      (requests st) (clock st)) in *.
  assert (heap st !! l1 = None) as Hl1 by apply fresh_not_allocated.
  assert (mapping_items HEADERS (heap st1) = Some HEADERS_template) as H1.
  { by apply mapping_items_insert_fresh. }
  pose proof (create_headers_state self2 st1 H1) as E2. simpl in E2.
  set (l2 := fresh (dom (<[l1 := ODict m1]> (heap st)))) in *.
  assert ((<[l1 := ODict m1]> (heap st)) !! l2 = None) as Hl2
    by apply fresh_not_allocated.
  assert (l1 <> l2) as Hne.
  { intros <-. by rewrite lookup_insert_eq in Hl2. }
  rewrite lookup_insert_ne in Hl2 by done.
  eexists l1, l2, st1, _. split; [exact E1|]. split; [exact E2|]. simpl.
  do 5 (split; [done|]).
  split; [by rewrite lookup_insert_eq|].
  split; [by rewrite lookup_insert_ne|].
  split; [by rewrite lookup_insert_eq|].
  split.
  - intros l o Hl. rewrite !lookup_insert_ne by congruence. done.
  - apply mapping_items_insert_fresh; [|done]. by rewrite lookup_insert_ne.
Qed.

End Headers.

(** The store of the freshly imported module meets the hypothesis of C7. *)
Lemma create_headers_leaves_template_witness :
  let self1 := mkShopify "1234" "token-one" in
  let self2 := mkShopify "1234" "token-two" in
  let st := initial_state 0 in
  exists l1 l2 st1 st2,
    _create_headers self1 st = (inr tt, st1) /\
    _create_headers self2 st1 = (inr tt, st2) /\
    self_headers st1 = Some l1 /\ self_headers st2 = Some l2 /\
    l1 <> l2 /\ heap st !! l1 = None /\ heap st !! l2 = None /\
    heap st1 !! l1 = Some (ODict (<["X-Shopify-Access-Token" := "token-one"]>
                                    HEADERS_template)) /\
    heap st2 !! l1 = heap st1 !! l1 /\
    heap st2 !! l2 = Some (ODict (<["X-Shopify-Access-Token" := "token-two"]>
                                    HEADERS_template)) /\
    (forall l o, heap st !! l = Some o -> heap st2 !! l = Some o) /\
    mapping_items HEADERS (heap st2) = Some HEADERS_template.
Proof.
  intros self1 self2 st.
  apply (create_headers_leaves_template self1 self2 st).
  vm_compute. reflexivity.
Defined.

(** ** The date windower *)

Section Windower.

Implicit Types (st : State).

(** Whatever the start date, [_start_days_till_now] raises before it yields:
    the parsing fails, or the name [date] is not bound. *)
Lemma start_days_till_now_never_yields start_date st :
  exists e, _start_days_till_now module_namespace start_date st = (inl e, st).
Proof.
  unfold _start_days_till_now, bind, list_index, py_int, load_name, raise, ret.
  repeat match goal with
         | |- context [match ?x with Some _ => _ | None => _ end] =>
             destruct x; simpl; try by eexists
         end.
Qed.

Lemma bind_ret_l {A B} (a : A) (k : A -> M B) : bind (ret a) k = k a.
Proof. reflexivity. Qed.

Lemma list_index_Some (parts : list string) i p :
  parts !! i = Some p -> list_index parts i = ret p.
Proof. unfold list_index. by intros ->. Qed.

Lemma py_int_Some s n : PyStr.int s = Some n -> py_int s = ret n.
Proof. unfold py_int. by intros ->. Qed.

Lemma load_name_bound ns name : name ∈ ns -> load_name ns name = ret tt.
Proof. intros H. unfold load_name. by rewrite decide_True. Qed.

(** With every name it reads bound, the windower gives one day string per
    day from the start date through today. *)
Lemma start_days_till_now_count_with_names_bound ns start_date st p0 p1 p2 y m d period :
  "date" ∈ ns -> "rrule" ∈ ns -> "DAILY" ∈ ns -> "datetime" ∈ ns ->
  PyStr.split "-" start_date = [p0; p1; p2] ->
  PyStr.int p0 = Some y -> PyStr.int (PyStr.lstrip p1) = Some m ->
  PyStr.int (PyStr.lstrip p2) = Some d ->
  Calendar.date_new y m d = inr period ->
  exists days,
    _start_days_till_now ns start_date st = (inr days, st) /\
    let today := Calendar.dt_date (Calendar.utc_of_posix (clock st) None) in
    Z.of_nat (length days) =
      Z.max 0 (Calendar.toordinal today - Calendar.toordinal period + 1).
Proof.
  intros H1 H2 H3 H4 Hs Hy Hm Hd Hp.
  unfold _start_days_till_now. rewrite Hs.
  rewrite (list_index_Some _ 0%nat p0), bind_ret_l by done.
  rewrite (py_int_Some _ _ Hy), bind_ret_l.
  rewrite (list_index_Some _ 1%nat p1), bind_ret_l by done.
  rewrite (py_int_Some _ _ Hm), bind_ret_l.
  rewrite (list_index_Some _ 2%nat p2), bind_ret_l by done.
  rewrite (py_int_Some _ _ Hd), bind_ret_l.
  rewrite (load_name_bound _ _ H1), bind_ret_l, Hp.
  change (lift (inr period)) with (@ret Calendar.date period). rewrite bind_ret_l.
  rewrite (load_name_bound _ _ H2), bind_ret_l.
  rewrite (load_name_bound _ _ H3), bind_ret_l.
  rewrite (load_name_bound _ _ H4), bind_ret_l.
  eexists. split; [reflexivity|].
  cbv zeta. rewrite length_fmap. unfold Calendar.rrule_daily.
  rewrite length_fmap, length_seq. lia.
Qed.

(** C2, on the code: for the start date [2022-03-01] and a clock two days
    later the windower raises [NameError] for [date] where three day strings
    are expected, and no start date makes it yield a day string. *)
Theorem start_days_till_now_name_error :
  _start_days_till_now module_namespace "2022-03-01"
      (initial_state Mock.noon_2022_03_03)
    = (inl (NameError "date"), initial_state Mock.noon_2022_03_03) /\
  forall start_date st,
    exists e, _start_days_till_now module_namespace start_date st = (inl e, st).
Proof.
  split; [by vm_compute | apply start_days_till_now_never_yields].
Qed.

(** With [date] and [DAILY] bound, the rest of the body gives the days from
    the start date through today. *)
Example start_days_till_now_with_names_bound :
  fst (_start_days_till_now ("date" :: "DAILY" :: module_namespace) "2022-03-01"
         (initial_state Mock.noon_2022_03_03))
  = inr ["2022-03-01"; "2022-03-02"; "2022-03-03"].
Proof. by vm_compute. Qed.

End Windower.

(** ** The mocked runs of the specification's tests *)

(** C1, on the code: with a transport answering every request with the two
    edges [tx1] and [tx2], the run for [start_date = 2022-03-01] yields no
    record: it ends in [AttributeError] before any request is sent. No run,
    whatever its arguments and its transport, yields a record. *)
Theorem mocked_two_edges_run_yields_nothing :
  (let run := drain (transactions_body
                       (Mock.env_answering Mock.cleaners Mock.two_edges) Mock.client
                       (Mock.kwargs_from "2022-03-01")
                       (initial_state Mock.noon_2022_03_01)) in
   run.1 = ([], inl (AttributeError "Shopify" "create_headers")) /\
   requests run.2 = []) /\
  (forall env self kwargs st,
     (drain (transactions_body env self kwargs st)).1.1 = []).
Proof.
  split; [by vm_compute|]. intros env self kwargs st.
  by destruct (transactions_never_yields env self kwargs st) as (e & st' & -> & _).
Qed.

(** C5, on the code: with a transport answering every request with HTTP 402,
    the run ends in [AttributeError], not in a transport error. No run,
    whatever its arguments and its transport, sends a request, so no status
    is ever seen. *)
Theorem mocked_402_run_raises_attribute_error :
  (let run := drain (transactions_body
                       (Mock.env_answering Mock.cleaners Mock.payment_required)
                       Mock.client (Mock.kwargs_from "2022-03-01")
                       (initial_state Mock.noon_2022_03_01)) in
   run.1 = ([], inl (AttributeError "Shopify" "create_headers")) /\
   requests run.2 = []) /\
  (forall env self kwargs st,
     requests (drain (transactions_body env self kwargs st)).2 = requests st).
Proof.
  split; [by vm_compute|]. intros env self kwargs st.
  by destruct (transactions_never_yields env self kwargs st) as (e & st' & -> & ?).
Qed.

(** C8, on the code: with a transport whose answers are not JSON, and with
    one whose JSON answers have no [data], the run ends in [AttributeError],
    not in a decoding or shape error: no response is ever read. *)
Theorem mocked_not_json_run_raises_attribute_error :
  (let run := drain (transactions_body
                       (Mock.env_answering Mock.cleaners Mock.not_json)
                       Mock.client (Mock.kwargs_from "2022-03-01")
                       (initial_state Mock.noon_2022_03_01)) in
   run.1 = ([], inl (AttributeError "Shopify" "create_headers")) /\
   requests run.2 = []) /\
  (let run := drain (transactions_body
                       (Mock.env_answering Mock.cleaners Mock.no_data)
                       Mock.client (Mock.kwargs_from "2022-03-01")
                       (initial_state Mock.noon_2022_03_01)) in
   run.1 = ([], inl (AttributeError "Shopify" "create_headers")) /\
   requests run.2 = []).
Proof. by vm_compute. Qed.

(** ** The URL, the query without placeholders *)

Section Strings.

Import PyStr.

Lemma of_chars_app (l1 l2 : list ascii) :
  of_chars (l1 ++ l2) = of_chars l1 +:+ of_chars l2.
Proof.
  induction l1 as [|c l1 IH]; [done|].
  change (String c (of_chars (l1 ++ l2)) = String c (of_chars l1 +:+ of_chars l2)).
  by rewrite IH.
Qed.

Lemma str_app_assoc (a b c : string) : (a +:+ b) +:+ c = a +:+ (b +:+ c).
Proof.
  induction a as [|x a IH]; [done|].
  change (String x ((a +:+ b) +:+ c) = String x (a +:+ (b +:+ c))).
  by rewrite IH.
Qed.

(** The organization id takes the place of its placeholder, whatever it is. *)
Lemma replace_organization_id (org : string) :
  replace ":organization_id:" org API_ORG_ID = org +:+ "/".
Proof.
  unfold replace, replace_chars, API_ORG_ID. simpl.
  by rewrite of_chars_app, of_chars_chars.
Qed.

(** X6. For every organization id, also one that contains the text of the
    placeholder, the URL of the requests is
    [https://partners.shopify.com/<organization_id>/api/2022-01/graphql.json]. *)
Theorem build_url_shape (self : Shopify) :
  build_url self =
    "https://partners.shopify.com/" +:+ organization_id self
      +:+ "/api/2022-01/graphql.json".
Proof.
  unfold build_url. rewrite replace_organization_id.
  unfold API_SCHEME, API_BASE_URL, API_VERSION, API_PATH_CALL_TYPE.
  rewrite str_app_assoc. reflexivity.
Qed.

(** Replacing a pattern that does not occur changes nothing. *)
Lemma replace_absent (old new s : string) :
  chars old <> [] -> ~ Occ (chars old) (chars s) -> replace old new s = s.
Proof.
  intros Ho Hn.
  pose proof (replace_Scan old new s Ho) as HS.
  apply Scan_Subst, Subst_id in HS; [|done|done].
  rewrite <- (of_chars_chars (replace old new s)), HS. apply of_chars_chars.
Qed.



End Strings.

(** ** The first [next], case by case *)

Section FirstNext.

Context (env : Env) (self : Shopify).
Implicit Types (kwargs : gmap string pyval) (st : State).

(** The body up to line 84, with the state it leaves. *)
Lemma body_reaches_create_headers kwargs st dt :
  start_date_input kwargs <> "" ->
  isoparse env (start_date_input kwargs) = inr dt ->
  transactions_body env self kwargs st =
    Raised (AttributeError "Shopify" "create_headers")
      (mkState (heap st) (self_headers st)
         (log st ++ ["Stream Shopify Partners Transactions";
                     "Retrieving transactions from " +:+ Calendar.str_datetime dt
                       +:+ " to "
                       +:+ Calendar.str_datetime
                             (Calendar.utc_of_posix (clock st) (Some 0))])
         (requests st) (clock st)).
Proof.
  intros Hne Hp. unfold transactions_body, gen_bind, logger_info at 1.
  cbv beta iota. destruct (decide _) as [|_]; [done|].
  unfold lift. rewrite Hp. cbv beta iota.
  unfold now_utc. cbv beta iota. unfold logger_info. cbv beta iota.
  rewrite getattr_create_headers. cbn [heap self_headers log requests clock].
  by rewrite <- app_assoc.
Qed.

(** X8. Whatever the keyword arguments, the first [next] raises and leaves
    the generator exhausted: the [ValueError] of the presence check when
    [start_date] is missing, the exception of the date parser when it rejects
    the value, [AttributeError] for [create_headers] otherwise. No request is
    sent, [self.headers] is not set, no object is allocated, and the log
    gets the opening line, the line [Retrieving ...] when the parser accepted
    the date, and never the line [Finished]. *)
Theorem first_next_always_raises kwargs st :
  exists e lines,
    next (shopify_partners_transactions env self kwargs st).1 st =
      (Raise e, Finished,
       mkState (heap st) (self_headers st) (log st ++ lines) (requests st)
               (clock st)) /\
    ("Finished: shopify_partners_transactions" ∉ lines) /\
    ((start_date_input kwargs = "" /\
      e = ValueError "The parameter start_date is required." /\
      lines = ["Stream Shopify Partners Transactions"]) \/
     (start_date_input kwargs <> "" /\
      isoparse env (start_date_input kwargs) = inl e /\
      lines = ["Stream Shopify Partners Transactions"]) \/
     (start_date_input kwargs <> "" /\
      e = AttributeError "Shopify" "create_headers" /\
      exists dt,
        isoparse env (start_date_input kwargs) = inr dt /\
        lines = ["Stream Shopify Partners Transactions";
                 "Retrieving transactions from " +:+ Calendar.str_datetime dt
                   +:+ " to "
                   +:+ Calendar.str_datetime
                         (Calendar.utc_of_posix (clock st) (Some 0))])).
Proof.
  cbn [shopify_partners_transactions call_generator_function fst next].
  destruct (decide (start_date_input kwargs = "")) as [H|H].
  - rewrite body_without_start_date by done.
    eexists _, _. split; [reflexivity|]. split; [compute_done|]. by left.
  - destruct (isoparse env (start_date_input kwargs)) as [e|dt] eqn:Hp.
    + rewrite (body_with_bad_start_date env self kwargs st e) by done.
      eexists _, _. split; [reflexivity|]. split; [compute_done|].
      right; left. done.
    + rewrite (body_reaches_create_headers kwargs st dt) by done.
      eexists _, _. split; [reflexivity|]. split.
      * rewrite !elem_of_cons, elem_of_nil. intros [Hf | [Hf | []]].
        -- discriminate Hf.
        -- discriminate Hf.
      * right; right. split; [done|]. split; [done|]. by exists dt.
Qed.

Lemma pretty_N_go_nonempty (x : N) (s : string) : s <> "" -> pretty_N_go x s <> "".
Proof.
  revert s. induction (N.lt_wf_0 x) as [x _ IH]; intros s Hs.
  destruct (decide (x = 0)%N) as [->|Hx]; [by rewrite pretty_N_go_0|].
  rewrite pretty_N_go_step by lia.
  apply IH; [|done]. apply N.div_lt; lia.
Qed.

(** [str(v)] is empty for the empty string only. *)
Lemma py_str_nonempty (v : pyval) : v <> VStr "" -> py_str v <> "".
Proof.
  destruct v as [|[|]|n|s]; simpl; try done.
  - intros _. destruct n as [|p|p]; try done.
    + unfold pretty, pretty_Z, pretty, pretty_positive, pretty, pretty_N.
      destruct (decide _) as [|_]; [done|].
      rewrite pretty_N_go_step by lia. by apply pretty_N_go_nonempty.
  - intros Hs Hs'. apply Hs. by rewrite Hs'.
Qed.

(** X9. Only the empty string and the absence of [start_date] count as
    missing. Every other value, [None], [False] and [0] among them, passes
    the presence check: its [str()] goes to the date parser, and the first
    [next] raises what the parser raises, or [AttributeError] when the
    parser accepts the text. *)
Theorem other_values_pass_the_presence_check kwargs st v :
  kwargs !! "start_date" = Some v ->
  v <> VStr "" ->
  exists st',
    next (shopify_partners_transactions env self kwargs st).1 st =
      (Raise (match isoparse env (py_str v) with
              | inl e => e
              | inr _ => AttributeError "Shopify" "create_headers"
              end), Finished, st') /\
    py_str v <> "".
Proof.
  intros Hk Hv.
  assert (start_date_input kwargs = py_str v) as Hs.
  { unfold start_date_input. by rewrite Hk. }
  pose proof (py_str_nonempty v Hv) as Hne.
  cbn [shopify_partners_transactions call_generator_function fst next].
  destruct (isoparse env (py_str v)) as [e|dt] eqn:Hp.
  - rewrite (body_with_bad_start_date env self kwargs st e); [by eexists | |];
      by rewrite Hs.
  - rewrite (body_reaches_create_headers kwargs st dt); [by eexists | |];
      by rewrite Hs.
Qed.

End FirstNext.

(** The value [None] meets the hypotheses of X9. *)
Lemma other_values_pass_the_presence_check_witness :
  let env := Mock.env_answering Mock.cleaners Mock.two_edges in
  let kwargs : gmap string pyval := {[ "start_date" := VNone ]} in
  exists st',
    next (shopify_partners_transactions env Mock.client kwargs (initial_state 0)).1
         (initial_state 0) =
      (Raise (match isoparse env (py_str VNone) with
              | inl e => e
              | inr _ => AttributeError "Shopify" "create_headers"
              end), Finished, st') /\
    py_str VNone <> "".
Proof.
  intros env kwargs.
  apply (other_values_pass_the_presence_check env Mock.client kwargs
           (initial_state 0) VNone).
  - reflexivity.
  - discriminate.
Defined.

(** ** The windower on well-formed start dates *)

Section WindowerOnDayStrings.

Import PyStr.
Implicit Types (c : ascii) (l : list ascii).

Lemma digit_range c :
  is_digit c = true -> (48 <= nat_of_ascii c <= 57)%nat.
Proof.
  unfold is_digit, digit_val.
  destruct ((48 <=? nat_of_ascii c)%nat && (nat_of_ascii c <=? 57)%nat) eqn:E;
    [|done].
  intros _. apply andb_true_iff in E as [?%Nat.leb_le ?%Nat.leb_le]. lia.
Qed.

Lemma digit_not_char c (x : ascii) :
  is_digit c = true -> (nat_of_ascii x < 48)%nat -> c <> x.
Proof. intros Hc%digit_range Hx ->. lia. Qed.

Lemma digit_not_space c : is_digit c = true -> is_space c = false.
Proof.
  intros Hc%digit_range. unfold is_space. apply not_true_is_false. intros H.
  rewrite !orb_true_iff, !andb_true_iff, !Nat.eqb_eq, !Nat.leb_le in H. lia.
Qed.

Lemma digit_has_value c : is_digit c = true -> exists v, digit_val c = Some v.
Proof. unfold is_digit. destruct (digit_val c); [by eexists | done]. Qed.

Lemma lstrip_chars_digits l :
  Forall (fun c => is_digit c = true) l -> lstrip_chars l = l.
Proof.
  destruct 1 as [|c l Hc _]; [done|]. simpl. by rewrite digit_not_space.
Qed.

Lemma strip_chars_digits l :
  Forall (fun c => is_digit c = true) l -> strip_chars l = l.
Proof.
  intros H. unfold strip_chars. rewrite (lstrip_chars_digits l) by done.
  rewrite lstrip_chars_digits by by apply Forall_rev.
  apply rev_involutive.
Qed.

Lemma digits_value_digits l acc prev :
  Forall (fun c => is_digit c = true) l ->
  l <> [] \/ prev = true ->
  exists n, digits_value acc prev l = Some n.
Proof.
  intros H. revert acc prev. induction H as [|c l Hc _ IH]; intros acc prev Hl.
  - destruct Hl as [Hl | ->]; [done|]. by eexists.
  - simpl. destruct (digit_has_value c Hc) as [v ->]. apply IH. by right.
Qed.

(** [int()] reads every non-empty run of digits. *)
Lemma int_of_digits l :
  l <> [] -> Forall (fun c => is_digit c = true) l ->
  exists n, int (of_chars l) = Some n.
Proof.
  intros Hl H. unfold int, int_of_chars. rewrite chars_of_chars.
  rewrite strip_chars_digits by done.
  destruct H as [|c l Hc H]; [done|].
  rewrite !decide_False by (apply digit_not_char; [done | vm_compute; lia]).
  apply digits_value_digits; [by constructor | by left].
Qed.

Lemma lstrip_digits l :
  Forall (fun c => is_digit c = true) l -> lstrip (of_chars l) = of_chars l.
Proof.
  intros H. unfold lstrip. by rewrite chars_of_chars, lstrip_chars_digits.
Qed.

Lemma split_chars_digit c cur l :
  is_digit c = true ->
  split_chars "-" cur (c :: l) = split_chars "-" (c :: cur) l.
Proof.
  intros Hc. simpl. rewrite decide_False; [done|].
  apply digit_not_char; [done | vm_compute; lia].
Qed.

(** A start date of the form [YYYY-MM-DD] splits into its three runs of
    digits. *)
Lemma split_day_string (d : string) :
  is_day_string d = true ->
  exists ys ms ds,
    split "-" d = [of_chars ys; of_chars ms; of_chars ds] /\
    ys <> [] /\ ms <> [] /\ ds <> [] /\
    Forall (fun c => is_digit c = true) ys /\
    Forall (fun c => is_digit c = true) ms /\
    Forall (fun c => is_digit c = true) ds.
Proof.
  unfold is_day_string, split.
  destruct (chars d) as [|y1 [|y2 [|y3 [|y4 [|a [|m1 [|m2 [|b [|d1 [|d2 [|? ?]]]]]]]]]]];
    try done.
  rewrite !andb_true_iff, !bool_decide_eq_true. cbn [forallb].
  rewrite !andb_true_iff.
  intros [[(Hy1 & Hy2 & Hy3 & Hy4 & Hm1 & Hm2 & Hd1 & Hd2 & _) ->] ->].
  exists [y1; y2; y3; y4], [m1; m2], [d1; d2].
  split.
  - rewrite !split_chars_digit by done.
    change (split_chars "-" [y4; y3; y2; y1] ("-"%char :: m1 :: m2 :: "-"%char :: [d1; d2]))
      with (rev [y4; y3; y2; y1]
              :: split_chars "-" [] (m1 :: m2 :: "-"%char :: [d1; d2])).
    rewrite !split_chars_digit by done.
    change (split_chars "-" [m2; m1] ("-"%char :: [d1; d2]))
      with (rev [m2; m1] :: split_chars "-" [] [d1; d2]).
    rewrite !split_chars_digit by done. reflexivity.
  - repeat split; try done; repeat constructor; done.
Qed.

(** X10. For every start date of the form [YYYY-MM-DD], valid or not as a
    date, the windower parses the three numbers and then raises [NameError]
    for [date]: it yields no day string and leaves the state as it is. *)
Theorem start_days_till_now_name_error_for_day_strings (start_date : string) (st : State) :
  is_day_string start_date = true ->
  _start_days_till_now module_namespace start_date st
  = (inl (NameError "date"), st).
Proof.
  intros (ys & ms & ds & Hs & Hys & Hms & Hds & Fy & Fm & Fd)%split_day_string.
  destruct (int_of_digits ys Hys Fy) as [y Hy].
  destruct (int_of_digits ms Hms Fm) as [m Hm].
  destruct (int_of_digits ds Hds Fd) as [d Hd].
  unfold _start_days_till_now. rewrite Hs.
  rewrite (list_index_Some _ 0%nat (of_chars ys)), bind_ret_l by done.
  rewrite (py_int_Some _ _ Hy), bind_ret_l.
  rewrite (list_index_Some _ 1%nat (of_chars ms)), bind_ret_l by done.
  rewrite lstrip_digits by done.
  rewrite (py_int_Some _ _ Hm), bind_ret_l.
  rewrite (list_index_Some _ 2%nat (of_chars ds)), bind_ret_l by done.
  rewrite lstrip_digits by done.
  rewrite (py_int_Some _ _ Hd), bind_ret_l.
  unfold load_name at 1. rewrite decide_False by compute_done.
  reflexivity.
Qed.

(** The start date [2022-13-45], well formed though not a date, meets the
    hypothesis of X10. *)
Lemma start_days_till_now_name_error_for_day_strings_witness :
  _start_days_till_now module_namespace "2022-13-45" (initial_state 0)
  = (inl (NameError "date"), initial_state 0).
Proof.
  apply (start_days_till_now_name_error_for_day_strings "2022-13-45"
           (initial_state 0)).
  reflexivity.
Defined.

End WindowerOnDayStrings.

(** ** The loop over the day strings *)

(** X12. The loop sends nothing without a query template and without
    headers: over at least one day, a registry without the [transactions]
    template raises [KeyError] at line 87, and a client whose [headers] were
    never built raises [AttributeError] at line 93; the template is looked
    up first. Nothing is yielded and the state is as it was. *)
Theorem loop_needs_template_and_headers
  (env : Env) (url d : string) (days : list string) (k : Gen) (st : State) :
  QUERIES env !! "transactions" = None \/ self_headers st = None ->
  exists e,
    drain (transactions_loop env url (d :: days) k st) = ([], inl e, st) /\
    e = match QUERIES env !! "transactions" with
        | None => KeyError "transactions"
        | Some _ => AttributeError "Shopify" "headers"
        end.
Proof.
  intros H. unfold transactions_loop. cbn [for_each].
  unfold process_day, gen_bind, lookup_query.
  destruct (QUERIES env !! "transactions") as [q|] eqn:Hq.
  - destruct H as [H|H]; [done|].
    cbv beta iota. unfold get_self_headers, ret. rewrite H. by eexists.
  - by eexists.
Qed.

(** A client without headers meets the hypothesis of X12. *)
Lemma loop_needs_template_and_headers_witness :
  let env := Mock.env_answering Mock.cleaners Mock.two_edges in
  let st := initial_state Mock.noon_2022_03_01 in
  exists e,
    drain (transactions_loop env (build_url Mock.client)
             ("2022-03-01" :: ["2022-03-02"]) gen_return st) = ([], inl e, st) /\
    e = match QUERIES env !! "transactions" with
        | None => KeyError "transactions"
        | Some _ => AttributeError "Shopify" "headers"
        end.
Proof.
  intros env st.
  apply (loop_needs_template_and_headers env (build_url Mock.client) "2022-03-01"
           ["2022-03-02"] gen_return st).
  right. reflexivity.
Defined.

(** The call of lines 91-95 does not bind: [data] is no parameter of
    [httpx.Client.get]. *)
Lemma client_get_refuses_data (env : Env) (url query : string) (h : loc) (st : State) :
  client_get env url [("headers", ArgObject h); ("data", ArgStr query)] st
  = (inl (TypeError "Client.get() got an unexpected keyword argument 'data'"), st).
Proof. reflexivity. Qed.

(** One iteration with the template and the headers at hand: the call of
    lines 91-95 raises, and the state is as it was. *)
Lemma process_day_raises_type_error
  (env : Env) (url template d : string) (h : loc) (k : Gen) (st : State) :
  QUERIES env !! "transactions" = Some template ->
  self_headers st = Some h ->
  process_day env url d k st
  = Raised (TypeError "Client.get() got an unexpected keyword argument 'data'") st.
Proof.
  intros Hq Hh. unfold process_day, gen_bind, lookup_query. rewrite Hq.
  cbv beta iota. unfold get_self_headers, ret. rewrite Hh.
  cbv beta iota. by rewrite client_get_refuses_data.
Qed.

(** X1. With the query template in the registry and [self.headers] set,
    the loop over at least one day raises [TypeError] at the call of lines
    91-95: it passes [data] by keyword, which [httpx.Client.get] does not
    take. Nothing is sent, nothing is yielded and the state is as it was,
    whatever the server would answer and whatever the registry of
    normalizers holds. *)
Theorem loop_first_request_raises_type_error
  (env : Env) (url template d : string) (h : loc) (days : list string) (k : Gen)
  (st : State) :
  QUERIES env !! "transactions" = Some template ->
  self_headers st = Some h ->
  exists msg,
    drain (transactions_loop env url (d :: days) k st) = ([], inl (TypeError msg), st).
Proof.
  intros Hq Hh. unfold transactions_loop. cbn [for_each].
  rewrite (process_day_raises_type_error env url template d h) by done.
  by eexists.
Qed.

(** A client whose headers were built, with the sample template, meets the
    hypotheses of X1. *)
Lemma loop_first_request_raises_type_error_witness :
  let env := Mock.env_answering Mock.cleaners Mock.two_edges in
  let st := Mock.state_with_headers Mock.noon_2022_03_01 in
  exists msg,
    drain (transactions_loop env (build_url Mock.client)
             ("2022-03-01" :: ["2022-03-02"]) gen_return st)
    = ([], inl (TypeError msg), st).
Proof.
  intros env st.
  apply (loop_first_request_raises_type_error env (build_url Mock.client)
           Mock.query_template "2022-03-01" 3%positive ["2022-03-02"] gen_return st);
    reflexivity.
Defined.

(** X11. [_create_headers] followed by the loop: [self.headers] is a dict of
    the two headers [Content-Type: application/graphql] and
    [X-Shopify-Access-Token: <token>], and still the first call of
    [client.get] raises [TypeError]: no request goes out and nothing is
    yielded. *)
Theorem headers_then_loop_raises
  (env : Env) (self : Shopify) (template d : string) (days : list string) (k : Gen)
  (st : State) :
  QUERIES env !! "transactions" = Some template ->
  mapping_items HEADERS (heap st) = Some HEADERS_template ->
  let st1 := (_create_headers self st).2 in
  exists h hm msg,
    self_headers st1 = Some h /\ mapping_items h (heap st1) = Some hm /\
    hm !! "Content-Type" = Some "application/graphql" /\
    hm !! "X-Shopify-Access-Token" = Some (shopify_partners_access_token self) /\
    dom hm = {[ "Content-Type"; "X-Shopify-Access-Token" ]} /\
    drain (transactions_loop env (build_url self) (d :: days) k st1)
      = ([], inl (TypeError msg), st1) /\
    requests st1 = requests st.
Proof.
  intros Hq HH st1.
  assert (self_headers st1 = Some (fresh (dom (heap st))) /\
          mapping_items (fresh (dom (heap st))) (heap st1)
            = Some (<["X-Shopify-Access-Token" := shopify_partners_access_token self]>
                      HEADERS_template) /\
          requests st1 = requests st) as (Hh & Hm & Hr).
  { unfold st1. rewrite create_headers_state by done.
    split; [done|]. split; [|done].
    unfold mapping_items. cbn [heap snd]. by rewrite lookup_insert_eq. }
  eexists _, _, _. split; [exact Hh|]. split; [exact Hm|].
  split; [by rewrite lookup_insert_ne|].
  split; [by rewrite lookup_insert_eq|].
  split.
  { rewrite dom_insert_L. unfold HEADERS_template.
    rewrite dom_insert_L, dom_singleton_L. set_solver. }
  split; [|exact Hr].
  unfold transactions_loop. cbn [for_each].
  by rewrite (process_day_raises_type_error env _ template d _ _ _ Hq Hh).
Qed.

(** The freshly imported module and the sample template meet the hypotheses
    of X11. *)
Lemma headers_then_loop_raises_witness :
  let env := Mock.env_answering Mock.cleaners Mock.two_edges in
  let st1 := (_create_headers Mock.client (initial_state Mock.noon_2022_03_03)).2 in
  exists h hm msg,
    self_headers st1 = Some h /\ mapping_items h (heap st1) = Some hm /\
    hm !! "Content-Type" = Some "application/graphql" /\
    hm !! "X-Shopify-Access-Token" = Some (shopify_partners_access_token Mock.client) /\
    dom hm = {[ "Content-Type"; "X-Shopify-Access-Token" ]} /\
    drain (transactions_loop env (build_url Mock.client)
             ("2022-03-01" :: ["2022-03-02"]) gen_return st1)
      = ([], inl (TypeError msg), st1) /\
    requests st1 = requests (initial_state Mock.noon_2022_03_03).
Proof.
  intros env.
  apply (headers_then_loop_raises env Mock.client Mock.query_template "2022-03-01"
           ["2022-03-02"] gen_return (initial_state Mock.noon_2022_03_03));
    reflexivity.
Defined.
